(** * axolotl: the preprocess command line entry point

    A shallow embedding of [src/axolotl/cli/preprocess.py] ([do_cli]) and
    the properties of the preprocessing orchestration that the
    specification states about it.

    The function is a straight-line coordinator over external
    collaborators (configuration loading, template registration, dataset
    loaders, the CSV converter, the weight probe).  The collaborators are
    not part of the file; they are taken as an environment record whose
    fields say how each call ends (normal return or raised exception).
    Every call and every log record is appended to an event trace, and
    the one piece of process-global state the coordinator touches, the
    dataset caching flag, is threaded explicitly. *)

From Stdlib Require Import String Ascii List Bool Arith Lia.
Import ListNotations.
Open Scope string_scope.

(** ** Python strings *)

Module PyStr.

(** [s.endswith(suffix)]: some tail of [s] is [suffix]. *)
Fixpoint endswith (s suffix : string) : bool :=
  if String.eqb s suffix then true
  else match s with
       | EmptyString => false
       | String _ s' => endswith s' suffix
       end.

(** Position of the cut made by [s.rsplit(sep, 1)] for a one character
    separator: the text before and after the LAST occurrence of [sep],
    or [None] when [sep] does not occur. *)
Fixpoint rpartition (sep : ascii) (s : string) : option (string * string) :=
  match s with
  | EmptyString => None
  | String a s' =>
      match rpartition sep s' with
      | Some (h, t) => Some (String a h, t)
      | None => if Ascii.eqb a sep then Some (EmptyString, s') else None
      end
  end.

(** [s.rsplit(sep, 1)]: a list of two pieces when [sep] occurs, of one
    piece (the whole string) when it does not. *)
Definition rsplit1 (sep : ascii) (s : string) : list string :=
  match rpartition sep s with
  | Some (h, t) => [h; t]
  | None => [s]
  end.

(** [c in s] for a one character [c]. *)
Fixpoint contains (c : ascii) (s : string) : bool :=
  match s with
  | EmptyString => false
  | String a s' => Ascii.eqb a c || contains c s'
  end.

End PyStr.

(** ** Python truthiness ([__bool__]) *)

Class Truthy (A : Type) := truthy : A -> bool.

#[global] Instance Truthy_bool : Truthy bool := fun b => b.

(** A [str] is truthy when it is not empty. *)
#[global] Instance Truthy_string : Truthy string :=
  fun s => match s with EmptyString => false | String _ _ => true end.

(** [None] is falsy; any other value has the truth value of its type. *)
#[global] Instance Truthy_option {A : Type} `{Truthy A} : Truthy (option A) :=
  fun o => match o with None => false | Some a => truthy a end.

(** [x == "literal"] for an attribute that is [None] or a [str]. *)
Definition eq_str (x : option string) (lit : string) : bool :=
  match x with
  | Some s => String.eqb s lit
  | None => false
  end.

(** [f"{x}"] for an attribute that is [None] or a [str]. *)
Definition format (x : option string) : string :=
  match x with
  | Some s => s
  | None => "None"
  end.

(** ** colorama's [Fore] escape sequences *)

Module Fore.
Definition ESC : string := String (ascii_of_nat 27) "[".
Definition RED : string := ESC ++ "31m".
Definition GREEN : string := ESC ++ "32m".
Definition RESET : string := ESC ++ "39m".
End Fore.

(** ** Data model *)

(** One entry of [cfg.datasets]. *)
Record DatasetDesc : Type := mkDataset { path : string }.

(** The attributes of the parsed configuration that [do_cli] reads or
    writes.  An attribute that is not set reads as [None]. *)
Record RunConfig : Type := mkCfg {
  chat_template : option string;
  default_system_message : option string;
  dataset_prepared_path : option string;
  datasets : list DatasetDesc;
  is_preprocess : bool;
  rl : option string;
  base_model : string;
  dataset_file : option string
}.

Definition set_is_preprocess (c : RunConfig) (b : bool) : RunConfig :=
  mkCfg (chat_template c) (default_system_message c) (dataset_prepared_path c)
        (datasets c) b (rl c) (base_model c) (dataset_file c).

Definition set_dataset_prepared_path (c : RunConfig) (p : option string) : RunConfig :=
  mkCfg (chat_template c) (default_system_message c) p
        (datasets c) (is_preprocess c) (rl c) (base_model c) (dataset_file c).

Definition set_dataset_file (c : RunConfig) (f : option string) : RunConfig :=
  mkCfg (chat_template c) (default_system_message c) (dataset_prepared_path c)
        (datasets c) (is_preprocess c) (rl c) (base_model c) f.

(** [PreprocessCliArgs]: the flag [do_cli] reads. *)
Record CliArgs : Type := mkArgs { download : bool }.

(** ** The conversion target path (lines 85-88)

    [parsed_cfg.dataset_prepared_path
       + f"/{parsed_cfg.datasets[0].path.rsplit('.', 1)[0]}.jsonl"] *)
Definition jsonl_file_path (prepared csv_path : string) : string :=
  prepared ++ "/" ++ hd EmptyString (PyStr.rsplit1 "." csv_path) ++ ".jsonl".

(** *** The target path in the words of the specification

    "same stem, [.jsonl] extension, placed under [dataset_prepared_path]",
    the stem being the base name of the file without its extension. *)
Module SpecWords.

(** The last component of a ["/"] separated path. *)
Definition basename (p : string) : string :=
  match PyStr.rpartition "/" p with
  | Some (_, name) => name
  | None => p
  end.

(** The base name without its last extension.  As for [pathlib]'s
    [stem], a base name whose last dot is its first or its last character
    has no extension: the stem of [.csv] is [.csv]. *)
Definition stem (p : string) : string :=
  match PyStr.rpartition "." (basename p) with
  | Some (String a name, String _ _) => String a name
  | _ => basename p
  end.

Definition conversion_target (prepared csv_path : string) : string :=
  prepared ++ "/" ++ stem csv_path ++ ".jsonl".

End SpecWords.

(** ** Exceptions and outcomes *)

(** A raised Python exception.  [except Exception] (line 107) catches the
    instances of [Exception]; [KeyboardInterrupt], [SystemExit] and
    [GeneratorExit] derive from [BaseException] only and pass through it. *)
Inductive PyExn : Type :=
| Error (name : string)
| Interrupt (name : string).

(** [isinstance(exc, Exception)] *)
Definition is_Exception (e : PyExn) : bool :=
  match e with
  | Error _ => true
  | Interrupt _ => false
  end.

(** How a call ends. *)
Inductive Outcome (A : Type) : Type :=
| Return (a : A)
| Raise (e : PyExn).

Arguments Return {A} a.
Arguments Raise {A} e.

(** ** Events: what a run does to the world outside [do_cli] *)

Inductive Loader : Type := StandardLoader | RLLoader.

Inductive Scope : Type :=
| DisableDatasetsCaching
| CatchWarnings
| InitEmptyWeights.

Inductive Event : Type :=
| PrintAxolotlTextArt
| LoadCfg (config : string) (kwargs : list (string * string))
| CheckAccelerateDefaultConfig
| CheckUserToken
| ParseArgs
| RegisterChatmlTemplate (system_message : option string)
| RegisterLlama3Template (system_message : option string)
| LogInfo (msg : string)
| LogWarning (msg : string)
| Enter (sc : Scope)
| Exit (sc : Scope)
| LoadDatasets (which : Loader) (cfg : RunConfig) (cli_args : CliArgs)
               (caching_enabled_during_call : bool)
| Convert (csv_file jsonl_file : string)
| SimpleFilter (action : string)
| FromPretrained (model_name : string) (trust_remote_code : bool).

(** The collaborators imported by the module (lines 16-31).  Their code is
    not under [src/]; each field gives the way the call ends for the
    arguments [do_cli] passes.  Following the interfaces of the
    specification (section 6) the loaders, the checks, the registrations,
    the converter and the probe return nothing and work by side effect. *)
Record Externals : Type := mkExternals {
  load_cfg : string -> list (string * string) -> Outcome RunConfig;
  check_accelerate_default_config : Outcome unit;
  check_user_token : Outcome unit;
  parse_args_into_dataclasses : Outcome CliArgs;
  register_chatml_template : option string -> Outcome unit;
  register_llama3_template : option string -> Outcome unit;
  load_datasets : RunConfig -> CliArgs -> Outcome unit;
  load_rl_datasets : RunConfig -> CliArgs -> Outcome unit;
  converter_convert : string -> string -> Outcome unit;
  from_pretrained : string -> Outcome unit
}.

(** ** The monad of the coordinator: state, trace and exceptions *)

(** The process-global state [do_cli] changes: the caching switch of the
    datasets library. *)
Record Process : Type := mkProcess { caching_enabled : bool }.

(** A finished computation: how it ended, the state it left, the events it
    produced in order.  State and events survive a raised exception. *)
Record Run (A : Type) : Type := mkRun {
  outcome : Outcome A;
  final : Process;
  events : list Event
}.

Arguments mkRun {A} _ _ _.
Arguments outcome {A} _.
Arguments final {A} _.
Arguments events {A} _.

Definition M (A : Type) : Type := Process -> Run A.

Definition ret {A : Type} (a : A) : M A :=
  fun p => mkRun (Return a) p [].

Definition raise {A : Type} (e : PyExn) : M A :=
  fun p => mkRun (Raise e) p [].

Definition bind {A B : Type} (m : M A) (f : A -> M B) : M B :=
  fun p =>
    let r := m p in
    match outcome r with
    | Return a =>
        let r' := f a (final r) in
        mkRun (outcome r') (final r') (events r ++ events r')
    | Raise e => mkRun (Raise e) (final r) (events r)
    end.

Declare Scope py_scope.
Delimit Scope py_scope with py.
Notation "x <- m ;; k" := (bind m (fun x => k))
  (at level 61, m at next level, right associativity) : py_scope.
Notation "m ;; k" := (bind m (fun _ => k))
  (at level 61, right associativity) : py_scope.
Open Scope py_scope.

(** A log record or another call that cannot fail. *)
Definition emit (e : Event) : M unit :=
  fun p => mkRun (Return tt) p [e].

(** A call of a collaborator: recorded, then it ends as the environment
    says. *)
Definition call {A : Type} (e : Event) (o : Outcome A) : M A :=
  fun p => mkRun o p [e].

Definition get_caching : M bool :=
  fun p => mkRun (Return (caching_enabled p)) p [].

Definition set_caching_enabled (b : bool) : M unit :=
  fun _ => mkRun (Return tt) (mkProcess b) [].

(** *** [with] and [try]/[except] *)

(** A context manager: [__enter__] hands out a value, [__exit__] takes it
    back. *)
Record ContextManager (T : Type) : Type := mkCM {
  cm_enter : M T;
  cm_exit : T -> M unit
}.

Arguments mkCM {T} _ _.
Arguments cm_enter {T} _.
Arguments cm_exit {T} _.

(** [with cm: body].  [__exit__] runs when the body returns and when it
    raises; none of the managers used here swallows the exception, so the
    body's outcome stands unless [__exit__] itself raises. *)
Definition with_ {T A : Type} (cm : ContextManager T) (body : M A) : M A :=
  fun p =>
    let r1 := cm_enter cm p in
    match outcome r1 with
    | Raise e => mkRun (Raise e) (final r1) (events r1)
    | Return t =>
        let r2 := body (final r1) in
        let r3 := cm_exit cm t (final r2) in
        mkRun (match outcome r3 with
               | Return _ => outcome r2
               | Raise e' => Raise e'
               end)
              (final r3)
              (events r1 ++ events r2 ++ events r3)
    end.

(** [try: body / except Exception as exc: handler] *)
Definition try_except_Exception {A : Type} (body : M A) (handler : PyExn -> M A) : M A :=
  fun p =>
    let r := body p in
    match outcome r with
    | Return a => r
    | Raise e =>
        if is_Exception e then
          let r' := handler e (final r) in
          mkRun (outcome r') (final r') (events r ++ events r')
        else r
    end.

(** Modelled from the spec: [disable_datasets_caching] of
    [axolotl.utils.trainer] is not under [src/].  Section 5 and section 9
    describe it as acquire (disable caching), run the body, release
    (restore the prior state). *)
Definition disable_datasets_caching : ContextManager bool :=
  mkCM (prior <- get_caching ;;
        emit (Enter DisableDatasetsCaching) ;;
        set_caching_enabled false ;;
        ret prior)
       (fun prior =>
          set_caching_enabled prior ;;
          emit (Exit DisableDatasetsCaching)).

(** [warnings.catch_warnings()] and accelerate's [init_empty_weights]:
    scopes of other libraries, visible here as their entry and exit. *)
Definition scope (sc : Scope) : ContextManager unit :=
  mkCM (emit (Enter sc)) (fun _ => emit (Exit sc)).

(** ** [do_cli] *)

Section Coordinator.

(** [axolotl.common.const.DEFAULT_DATASET_PREPARED_PATH]: a string constant
    of the repository whose value is not under [src/]. *)
Variable DEFAULT_DATASET_PREPARED_PATH : string.

Variable ext : Externals.

(** Lines 48-63: chat template registration. *)
Definition register_template (parsed_cfg : RunConfig) : M unit :=
  if eq_str (chat_template parsed_cfg) "chatml" then
    if truthy (default_system_message parsed_cfg) then
      emit (LogInfo ("ChatML set. Adding default system message: "
                     ++ format (default_system_message parsed_cfg))) ;;
      call (RegisterChatmlTemplate (default_system_message parsed_cfg))
           (register_chatml_template ext (default_system_message parsed_cfg))
    else
      call (RegisterChatmlTemplate None) (register_chatml_template ext None)
  else if eq_str (chat_template parsed_cfg) "llama3" then
    if truthy (default_system_message parsed_cfg) then
      emit (LogInfo ("LLaMA-3 set. Adding default system message: "
                     ++ format (default_system_message parsed_cfg))) ;;
      call (RegisterLlama3Template (default_system_message parsed_cfg))
           (register_llama3_template ext (default_system_message parsed_cfg))
    else
      call (RegisterLlama3Template None) (register_llama3_template ext None)
  else
    ret tt.

(** Lines 66-71: the text of the warning. *)
Definition default_path_warning : string :=
  Fore.RED
  ++ "preprocess CLI called without dataset_prepared_path set, "
  ++ ("using default path: " ++ DEFAULT_DATASET_PREPARED_PATH)
  ++ Fore.RESET.

(** Lines 65-73: default for [dataset_prepared_path]. *)
Definition default_prepared_path (parsed_cfg : RunConfig) : M RunConfig :=
  if negb (truthy (dataset_prepared_path parsed_cfg)) then
    emit (LogWarning default_path_warning) ;;
    ret (set_dataset_prepared_path parsed_cfg (Some DEFAULT_DATASET_PREPARED_PATH))
  else
    ret parsed_cfg.

(** A loader call; the event keeps the value of the caching switch at the
    moment of the call. *)
Definition call_loader (which : Loader) (cfg : RunConfig) (cli_args : CliArgs) : M unit :=
  caching <- get_caching ;;
  call (LoadDatasets which cfg cli_args caching)
       (match which with
        | RLLoader => load_rl_datasets ext cfg cli_args
        | StandardLoader => load_datasets ext cfg cli_args
        end).

(** Lines 75-79: dataset materialization. *)
Definition materialize (parsed_cfg : RunConfig) (parsed_cli_args : CliArgs) : M unit :=
  with_ disable_datasets_caching
    (if truthy (rl parsed_cfg) then
       call_loader RLLoader parsed_cfg parsed_cli_args
     else
       call_loader StandardLoader parsed_cfg parsed_cli_args).

(** [parsed_cfg.datasets[0]]: [IndexError] on an empty list. *)
Definition first_dataset (parsed_cfg : RunConfig) : M DatasetDesc :=
  match datasets parsed_cfg with
  | d :: _ => ret d
  | [] => raise (Error "IndexError")
  end.

(** The left operand of [+] on line 86: [None + str] is a [TypeError]. *)
Definition as_str (x : option string) : M string :=
  match x with
  | Some s => ret s
  | None => raise (Error "TypeError")
  end.

(** Lines 81-83: the test of the conversion, [and] evaluating its right
    operand only when the left one is truthy. *)
Definition is_csv_dataset (parsed_cfg : RunConfig) : M bool :=
  if truthy (dataset_prepared_path parsed_cfg) then
    d <- first_dataset parsed_cfg ;;
    ret (PyStr.endswith (path d) ".csv")
  else
    ret false.

(** Lines 81-93: conversion of a CSV dataset to JSON lines. *)
Definition convert_csv (parsed_cfg : RunConfig) : M RunConfig :=
  cond <- is_csv_dataset parsed_cfg ;;
  if (cond : bool) then
    d <- first_dataset parsed_cfg ;;
    let csv_file := path d in
    prepared <- as_str (dataset_prepared_path parsed_cfg) ;;
    d' <- first_dataset parsed_cfg ;;
    let jsonl_file := jsonl_file_path prepared (path d') in
    emit (LogInfo ("Converting " ++ csv_file ++ " to " ++ jsonl_file ++ "...")) ;;
    call (Convert csv_file jsonl_file) (converter_convert ext csv_file jsonl_file) ;;
    ret (set_dataset_file parsed_cfg (Some jsonl_file))
  else
    ret parsed_cfg.

(** Lines 95-109: the weight probe. *)
Definition probe_weights (parsed_cfg : RunConfig) (parsed_cli_args : CliArgs) : M unit :=
  if download parsed_cli_args then
    let model_name := base_model parsed_cfg in
    with_ (scope CatchWarnings)
      (emit (SimpleFilter "ignore") ;;
       with_ (scope InitEmptyWeights)
         (try_except_Exception
            (call (FromPretrained model_name true) (from_pretrained ext model_name))
            (fun _ => ret tt)))
  else
    ret tt.

(** Lines 111-115: the text of the final report. *)
Definition success_message (parsed_cfg : RunConfig) : string :=
  Fore.GREEN
  ++ ("Success! Preprocessed data path: `dataset_prepared_path: "
      ++ format (dataset_prepared_path parsed_cfg) ++ "`")
  ++ Fore.RESET.

(** Lines 75-115: materialization, conversion, probe and report, for the
    configuration and the arguments that lines 36-73 have prepared. *)
Definition prepare_datasets (parsed_cfg : RunConfig) (parsed_cli_args : CliArgs) : M RunConfig :=
  materialize parsed_cfg parsed_cli_args ;;
  parsed_cfg <- convert_csv parsed_cfg ;;
  probe_weights parsed_cfg parsed_cli_args ;;
  emit (LogInfo (success_message parsed_cfg)) ;;
  ret parsed_cfg.

(** Lines 36-115.  Python's [do_cli] returns [None]; the model returns the
    last value of the local [parsed_cfg], so that statements can speak of
    the configuration the run ends with. *)
Definition do_cli (config : string) (kwargs : list (string * string)) : M RunConfig :=
  emit PrintAxolotlTextArt ;;
  parsed_cfg <- call (LoadCfg config kwargs) (load_cfg ext config kwargs) ;;
  let parsed_cfg := set_is_preprocess parsed_cfg true in
  call CheckAccelerateDefaultConfig (check_accelerate_default_config ext) ;;
  call CheckUserToken (check_user_token ext) ;;
  parsed_cli_args <- call ParseArgs (parse_args_into_dataclasses ext) ;;
  register_template parsed_cfg ;;
  parsed_cfg <- default_prepared_path parsed_cfg ;;
  prepare_datasets parsed_cfg parsed_cli_args.

End Coordinator.

(** ** Reading a trace *)

Definition is_loader_call (e : Event) : bool :=
  match e with LoadDatasets _ _ _ _ => true | _ => false end.

Definition is_convert_call (e : Event) : bool :=
  match e with Convert _ _ => true | _ => false end.

Definition is_probe_call (e : Event) : bool :=
  match e with FromPretrained _ _ => true | _ => false end.

Definition is_registration (e : Event) : bool :=
  match e with
  | RegisterChatmlTemplate _ | RegisterLlama3Template _ => true
  | _ => false
  end.

(** A process as [do_cli] finds it. *)
Definition start (caching : bool) : Process := mkProcess caching.

(** ** Sample environments *)

Module Sample.

Definition cfg_csv : RunConfig :=
  mkCfg (Some "chatml") (Some "") (Some "out") [mkDataset "data/train.csv"]
        false None "some/model" None.

Definition cfg_json : RunConfig :=
  mkCfg (Some "llama3") (Some "You are helpful.") None [mkDataset "data/train.json"]
        false (Some "dpo") "some/model" None.

(** Every collaborator returns; the probe fails as an unreachable model
    does. *)
Definition env (cfg : RunConfig) (dl : bool) : Externals :=
  mkExternals (fun _ _ => Return cfg) (Return tt) (Return tt)
              (Return (mkArgs dl))
              (fun _ => Return tt) (fun _ => Return tt)
              (fun _ _ => Return tt) (fun _ _ => Return tt)
              (fun _ _ => Return tt)
              (fun _ => Raise (Error "OSError")).

(** The same with a loader that raises. *)
Definition env_loader_fails (cfg : RunConfig) : Externals :=
  mkExternals (fun _ _ => Return cfg) (Return tt) (Return tt)
              (Return (mkArgs true))
              (fun _ => Return tt) (fun _ => Return tt)
              (fun _ _ => Raise (Error "ValueError"))
              (fun _ _ => Raise (Error "ValueError"))
              (fun _ _ => Return tt)
              (fun _ => Return tt).

(** The probe is interrupted from the keyboard. *)
Definition env_interrupted (cfg : RunConfig) : Externals :=
  mkExternals (fun _ _ => Return cfg) (Return tt) (Return tt)
              (Return (mkArgs true))
              (fun _ => Return tt) (fun _ => Return tt)
              (fun _ _ => Return tt) (fun _ _ => Return tt)
              (fun _ _ => Return tt)
              (fun _ => Raise (Interrupt "KeyboardInterrupt")).

End Sample.

(** ** Closed forms used in the proofs *)

(** A run seen after the events [pre] that came before it. *)
Definition prepend {A : Type} (pre : list Event) (r : Run A) : Run A :=
  mkRun (outcome r) (final r) (pre ++ events r).

(** The events of lines 36-73: everything but a loader call, a conversion
    and a probe. *)
Definition preparatory (e : Event) : bool :=
  negb (is_loader_call e) && negb (is_convert_call e) && negb (is_probe_call e).

(** The loader line 76 selects. *)
Definition which_loader (cfg : RunConfig) : Loader :=
  if truthy (rl cfg) then RLLoader else StandardLoader.

(** How the selected loader ends. *)
Definition loader_outcome (ext : Externals) (cfg : RunConfig) (cli_args : CliArgs) : Outcome unit :=
  match which_loader cfg with
  | RLLoader => load_rl_datasets ext cfg cli_args
  | StandardLoader => load_datasets ext cfg cli_args
  end.

(** The configuration after lines 65-73. *)
Definition with_default_path (default : string) (cfg : RunConfig) : RunConfig :=
  if truthy (dataset_prepared_path cfg) then cfg
  else set_dataset_prepared_path cfg (Some default).

(** The events of the probe, lines 97-109. *)
Definition probe_events (model_name : string) : list Event :=
  [Enter CatchWarnings; SimpleFilter "ignore"; Enter InitEmptyWeights;
   FromPretrained model_name true; Exit InitEmptyWeights; Exit CatchWarnings].

(** How lines 103-108 end for a given end of [from_pretrained]. *)
Definition probe_outcome (o : Outcome unit) : Outcome unit :=
  match o with
  | Return _ => Return tt
  | Raise e => if is_Exception e then Return tt else Raise e
  end.

(** The argument lines 49-55 and 57-63 pass to the registration: the
    message when it is truthy, nothing otherwise. *)
Definition passed_message (cfg : RunConfig) : option string :=
  if truthy (default_system_message cfg) then default_system_message cfg
  else None.

Definition set_default_system_message (c : RunConfig) (m : option string) : RunConfig :=
  mkCfg (chat_template c) m (dataset_prepared_path c)
        (datasets c) (is_preprocess c) (rl c) (base_model c) (dataset_file c).

(** The three events of lines 75-79. *)
Definition materialize_events (cfg : RunConfig) (cli_args : CliArgs) : list Event :=
  [Enter DisableDatasetsCaching;
   LoadDatasets (which_loader cfg) cfg cli_args false;
   Exit DisableDatasetsCaching].

(** C1 in the words of the specification: every field of the
    configuration that names the dataset source refers to the artifact. *)
Definition points_only_at (cfg : RunConfig) (artifact : string) : Prop :=
  dataset_file cfg = Some artifact /\
  forall d, hd_error (datasets cfg) = Some d -> path d = artifact.

(** ** Further closed forms and samples *)

(** The five calls of lines 38-46, in order. *)
Definition setup_events (config : string) (kwargs : list (string * string)) : list Event :=
  [PrintAxolotlTextArt; LoadCfg config kwargs; CheckAccelerateDefaultConfig;
   CheckUserToken; ParseArgs].

Definition is_setup_call (e : Event) : bool :=
  match e with
  | PrintAxolotlTextArt | LoadCfg _ _ | CheckAccelerateDefaultConfig
  | CheckUserToken | ParseArgs => true
  | _ => false
  end.

(** What lines 65-73 log. *)
Definition warning_events (default : string) (cfg : RunConfig) : list Event :=
  if truthy (dataset_prepared_path cfg) then []
  else [LogWarning (default_path_warning default)].

(** A log record whose text opens with the escape character, as the final
    report does and no other [LOG.info] of [do_cli] does. *)
Definition is_colored_info (e : Event) : bool :=
  match e with
  | LogInfo (String c _) => Ascii.eqb c (ascii_of_nat 27)
  | _ => false
  end.

(** The environment [ext] with another weight probe. *)
Definition with_from_pretrained (ext : Externals) (probe : string -> Outcome unit) : Externals :=
  mkExternals (load_cfg ext) (check_accelerate_default_config ext) (check_user_token ext)
              (parse_args_into_dataclasses ext)
              (register_chatml_template ext) (register_llama3_template ext)
              (load_datasets ext) (load_rl_datasets ext)
              (converter_convert ext) probe.

(** A probe that returns or raises an instance of [Exception]. *)
Definition probe_is_caught (o : Outcome unit) : bool :=
  match o with
  | Return _ => true
  | Raise e => is_Exception e
  end.

Module Scenario.

(** No dataset configured. *)
Definition cfg_no_dataset : RunConfig :=
  mkCfg None None (Some "out") [] false None "some/model" None.

(** The user token check fails. *)
Definition env_no_token (cfg : RunConfig) : Externals :=
  mkExternals (fun _ _ => Return cfg) (Return tt) (Raise (Error "LocalTokenNotFoundError"))
              (Return (mkArgs true))
              (fun _ => Return tt) (fun _ => Return tt)
              (fun _ _ => Return tt) (fun _ _ => Return tt)
              (fun _ _ => Return tt)
              (fun _ => Return tt).

(** The converter fails. *)
Definition env_converter_fails (cfg : RunConfig) : Externals :=
  mkExternals (fun _ _ => Return cfg) (Return tt) (Return tt)
              (Return (mkArgs true))
              (fun _ => Return tt) (fun _ => Return tt)
              (fun _ _ => Return tt) (fun _ _ => Return tt)
              (fun _ _ => Raise (Error "FileNotFoundError"))
              (fun _ => Return tt).

(** The chatml registration fails. *)
Definition env_registration_fails (cfg : RunConfig) : Externals :=
  mkExternals (fun _ _ => Return cfg) (Return tt) (Return tt)
              (Return (mkArgs true))
              (fun _ => Raise (Error "ValueError")) (fun _ => Return tt)
              (fun _ _ => Return tt) (fun _ _ => Return tt)
              (fun _ _ => Return tt)
              (fun _ => Return tt).

End Scenario.

(** The environment [ext] with a configuration loader that returns [cfg]. *)
Definition with_loaded_cfg (ext : Externals) (cfg : RunConfig) : Externals :=
  mkExternals (fun _ _ => Return cfg)
              (check_accelerate_default_config ext) (check_user_token ext)
              (parse_args_into_dataclasses ext)
              (register_chatml_template ext) (register_llama3_template ext)
              (load_datasets ext) (load_rl_datasets ext)
              (converter_convert ext) (from_pretrained ext).

(** How the registration call recorded by an event ends. *)
Definition registration_outcome (ext : Externals) (e : Event) : option (Outcome unit) :=
  match e with
  | RegisterChatmlTemplate m => Some (register_chatml_template ext m)
  | RegisterLlama3Template m => Some (register_llama3_template ext m)
  | _ => None
  end.

(** ** Sample runs *)

(** A CSV dataset, [download] set, an unreachable model. *)
Example run_csv_with_download :
  do_cli "last_run_prepared" (Sample.env Sample.cfg_csv true) "config.yml" [] (start true)
  = mkRun
      (Return (set_dataset_file (set_is_preprocess Sample.cfg_csv true)
                 (Some "out/data/train.jsonl")))
      (start true)
      [PrintAxolotlTextArt; LoadCfg "config.yml" [];
       CheckAccelerateDefaultConfig; CheckUserToken; ParseArgs;
       RegisterChatmlTemplate None;
       Enter DisableDatasetsCaching;
       LoadDatasets StandardLoader (set_is_preprocess Sample.cfg_csv true)
                    (mkArgs true) false;
       Exit DisableDatasetsCaching;
       LogInfo "Converting data/train.csv to out/data/train.jsonl...";
       Convert "data/train.csv" "out/data/train.jsonl";
       Enter CatchWarnings; SimpleFilter "ignore"; Enter InitEmptyWeights;
       FromPretrained "some/model" true;
       Exit InitEmptyWeights; Exit CatchWarnings;
       LogInfo (success_message
                  (set_dataset_file (set_is_preprocess Sample.cfg_csv true)
                     (Some "out/data/train.jsonl")))].
Proof. vm_compute. reflexivity. Qed.

(** A JSON dataset, a reinforcement learning run, no prepared path, no
    download. *)
Example run_json_without_download :
  events (do_cli "last_run_prepared" (Sample.env Sample.cfg_json false)
                 "config.yml" [] (start true))
  = [PrintAxolotlTextArt; LoadCfg "config.yml" [];
     CheckAccelerateDefaultConfig; CheckUserToken; ParseArgs;
     LogInfo "LLaMA-3 set. Adding default system message: You are helpful.";
     RegisterLlama3Template (Some "You are helpful.");
     LogWarning (default_path_warning "last_run_prepared");
     Enter DisableDatasetsCaching;
     LoadDatasets RLLoader
       (set_dataset_prepared_path (set_is_preprocess Sample.cfg_json true)
          (Some "last_run_prepared"))
       (mkArgs false) false;
     Exit DisableDatasetsCaching;
     LogInfo (success_message
                (set_dataset_prepared_path (set_is_preprocess Sample.cfg_json true)
                   (Some "last_run_prepared")))].
Proof. vm_compute. reflexivity. Qed.

(** A loader that raises: the exception leaves [do_cli], after the scope
    has been left and the caching switch restored, here from off to off. *)
Example run_loader_fails :
  outcome (do_cli "last_run_prepared" (Sample.env_loader_fails Sample.cfg_json)
                  "config.yml" [] (start false))
    = Raise (Error "ValueError") /\
  final (do_cli "last_run_prepared" (Sample.env_loader_fails Sample.cfg_json)
                "config.yml" [] (start false))
    = start false /\
  last (events (do_cli "last_run_prepared" (Sample.env_loader_fails Sample.cfg_json)
                       "config.yml" [] (start false)))
       PrintAxolotlTextArt
    = Exit DisableDatasetsCaching.
Proof. repeat split; vm_compute; reflexivity. Qed.

(** [except Exception] does not catch a [KeyboardInterrupt]: it leaves
    [do_cli] and no success report is logged. *)
Example run_probe_interrupted :
  outcome (do_cli "last_run_prepared" (Sample.env_interrupted Sample.cfg_json)
                  "config.yml" [] (start true))
    = Raise (Interrupt "KeyboardInterrupt") /\
  last (events (do_cli "last_run_prepared" (Sample.env_interrupted Sample.cfg_json)
                       "config.yml" [] (start true)))
       PrintAxolotlTextArt
    = Exit CatchWarnings.
Proof. repeat split; vm_compute; reflexivity. Qed.

(** ** Python strings: facts *)

Module PyStrFacts.
Import PyStr.

Lemma endswith_app (p suffix : string) : endswith (p ++ suffix) suffix = true.
Proof.
  induction p as [|a p IH].
  - change (EmptyString ++ suffix) with suffix.
    destruct suffix as [|c t]; [reflexivity|].
    unfold endswith. now rewrite String.eqb_refl.
  - change (String a p ++ suffix) with (String a (p ++ suffix)).
    cbn [endswith]. rewrite IH.
    now destruct (String.eqb (String a (p ++ suffix)) suffix).
Qed.

Lemma endswith_inv (s suffix : string) :
  endswith s suffix = true -> exists p, s = p ++ suffix.
Proof.
  induction s as [|a s IH]; cbn [endswith].
  - destruct suffix; [exists EmptyString; reflexivity | discriminate].
  - destruct (String.eqb (String a s) suffix) eqn:E.
    + apply String.eqb_eq in E. exists EmptyString. exact E.
    + intros H. destruct (IH H) as [p ->]. exists (String a p). reflexivity.
Qed.

(** [endswith] is Python's: [s] ends with [suffix] exactly when [s] is
    some text followed by [suffix]. *)
Lemma endswith_spec (s suffix : string) :
  endswith s suffix = true <-> exists p, s = p ++ suffix.
Proof.
  split; [apply endswith_inv | intros [p ->]; apply endswith_app].
Qed.

(** The last ["."] of [base ++ ".csv"] is the one of the extension. *)
Lemma rpartition_csv (base : string) :
  rpartition "." (base ++ ".csv") = Some (base, "csv").
Proof.
  induction base as [|a base IH]; simpl; [reflexivity | now rewrite IH].
Qed.

Lemma rpartition_absent (c : ascii) (s : string) :
  contains c s = false -> rpartition c s = None.
Proof.
  induction s as [|a s IH]; simpl; [reflexivity|].
  intros H. apply orb_false_iff in H. destruct H as [Ha Hs].
  now rewrite (IH Hs), Ha.
Qed.

End PyStrFacts.

(** ** The conversion target *)

Lemma jsonl_file_path_csv (prepared base : string) :
  jsonl_file_path prepared (base ++ ".csv") = prepared ++ "/" ++ base ++ ".jsonl".
Proof.
  unfold jsonl_file_path, PyStr.rsplit1.
  now rewrite PyStrFacts.rpartition_csv.
Qed.

(** C2, as the specification words it, fails: for the dataset path
    [data/train.csv] the stem is [train] and the claimed target is
    [out/train.jsonl], while line 87 keeps the directory part and computes
    [out/data/train.jsonl]. *)
Lemma conversion_target_is_not_the_stem :
  PyStr.endswith "data/train.csv" ".csv" = true /\
  SpecWords.stem "data/train.csv" = "train" /\
  SpecWords.conversion_target "out" "data/train.csv" = "out/train.jsonl" /\
  jsonl_file_path "out" "data/train.csv" = "out/data/train.jsonl" /\
  jsonl_file_path "out" "data/train.csv"
    <> SpecWords.conversion_target "out" "data/train.csv".
Proof.
  repeat split; try reflexivity.
  vm_compute. discriminate.
Qed.

(** ** The monad: equations *)

Lemma bind_Return {A B : Type} (m : M A) (f : A -> M B) (p : Process) (a : A) :
  outcome (m p) = Return a ->
  bind m f p = prepend (events (m p)) (f a (final (m p))).
Proof. unfold bind, prepend. intros ->. reflexivity. Qed.

Lemma bind_Raise {A B : Type} (m : M A) (f : A -> M B) (p : Process) (e : PyExn) :
  outcome (m p) = Raise e ->
  bind m f p = mkRun (Raise e) (final (m p)) (events (m p)).
Proof. unfold bind. intros ->. reflexivity. Qed.

(** A sequence either stops at the exception of its first part or goes on
    with the value that part returned. *)
Lemma bind_cases {A B : Type} (m : M A) (f : A -> M B) (p : Process) :
  (exists e, outcome (m p) = Raise e /\
             bind m f p = mkRun (Raise e) (final (m p)) (events (m p)))
  \/ (exists a, outcome (m p) = Return a /\
                bind m f p = prepend (events (m p)) (f a (final (m p)))).
Proof.
  destruct (outcome (m p)) as [a|e] eqn:E.
  - right. exists a. split; [reflexivity | now apply bind_Return].
  - left. exists e. split; [reflexivity | now apply bind_Raise].
Qed.

Lemma prepend_prepend {A : Type} (l1 l2 : list Event) (r : Run A) :
  prepend l1 (prepend l2 r) = prepend (l1 ++ l2) r.
Proof. unfold prepend; simpl. now rewrite app_assoc. Qed.

(** ** The steps in closed form *)

Section StepFacts.

Variable DEFAULT_DATASET_PREPARED_PATH : string.
Variable ext : Externals.

(** Lines 48-63 leave the process alone and produce only log records and
    registrations. *)
Lemma register_template_frame (cfg : RunConfig) (p : Process) :
  final (register_template ext cfg p) = p /\
  forallb preparatory (events (register_template ext cfg p)) = true.
Proof.
  unfold register_template.
  destruct (eq_str (chat_template cfg) "chatml");
    [| destruct (eq_str (chat_template cfg) "llama3")];
    destruct (truthy (default_system_message cfg));
    split; reflexivity.
Qed.

(** Lines 65-73 never raise. *)
Lemma default_prepared_path_run (cfg : RunConfig) (p : Process) :
  default_prepared_path DEFAULT_DATASET_PREPARED_PATH cfg p =
  mkRun (Return (with_default_path DEFAULT_DATASET_PREPARED_PATH cfg)) p
        (if truthy (dataset_prepared_path cfg) then []
         else [LogWarning (default_path_warning DEFAULT_DATASET_PREPARED_PATH)]).
Proof.
  unfold default_prepared_path, with_default_path.
  destruct (truthy (dataset_prepared_path cfg)); reflexivity.
Qed.

(** Lines 75-79: one loader call between the entry and the exit of the
    scope, made with caching off; the switch is back where it was. *)
Lemma materialize_run (cfg : RunConfig) (cli_args : CliArgs) (p : Process) :
  materialize ext cfg cli_args p =
  mkRun (loader_outcome ext cfg cli_args) p
        [Enter DisableDatasetsCaching;
         LoadDatasets (which_loader cfg) cfg cli_args false;
         Exit DisableDatasetsCaching].
Proof.
  unfold materialize, loader_outcome, which_loader.
  destruct p as [c].
  destruct (truthy (rl cfg)); cbv [with_ disable_datasets_caching call_loader
    bind get_caching set_caching_enabled emit call ret cm_enter cm_exit
    outcome final events caching_enabled app];
  [destruct (load_rl_datasets ext cfg cli_args)
  |destruct (load_datasets ext cfg cli_args)]; reflexivity.
Qed.

(** Lines 95-109. *)
Lemma probe_weights_run (cfg : RunConfig) (cli_args : CliArgs) (p : Process) :
  probe_weights ext cfg cli_args p =
  if download cli_args then
    mkRun (probe_outcome (from_pretrained ext (base_model cfg))) p
          (probe_events (base_model cfg))
  else mkRun (Return tt) p [].
Proof.
  unfold probe_weights, probe_outcome, probe_events.
  destruct (download cli_args); [|reflexivity].
  cbv [with_ scope try_except_Exception bind emit call ret cm_enter cm_exit
       outcome final events app].
  destruct (from_pretrained ext (base_model cfg)) as [[]|e]; [reflexivity|].
  destruct e; reflexivity.
Qed.

(** Lines 81-93 when the test of line 81 fails on the extension. *)
Lemma convert_csv_skip (cfg : RunConfig) (d : DatasetDesc) (ds : list DatasetDesc)
      (p : Process) :
  datasets cfg = d :: ds ->
  PyStr.endswith (path d) ".csv" = false ->
  convert_csv ext cfg p = mkRun (Return cfg) p [].
Proof.
  intros Hd Hc. unfold convert_csv, is_csv_dataset, first_dataset.
  rewrite Hd.
  destruct (truthy (dataset_prepared_path cfg));
    cbv [bind ret outcome final events app]; rewrite ?Hc; reflexivity.
Qed.

(** Lines 81-93 when the test of line 81 fails on the prepared path. *)
Lemma convert_csv_no_prepared_path (cfg : RunConfig) (p : Process) :
  truthy (dataset_prepared_path cfg) = false ->
  convert_csv ext cfg p = mkRun (Return cfg) p [].
Proof.
  intros Ht. unfold convert_csv, is_csv_dataset. rewrite Ht. reflexivity.
Qed.

(** Lines 81-93 on an empty dataset list: [datasets[0]] raises. *)
Lemma convert_csv_no_dataset (cfg : RunConfig) (p : Process) :
  truthy (dataset_prepared_path cfg) = true ->
  datasets cfg = [] ->
  convert_csv ext cfg p = mkRun (Raise (Error "IndexError")) p [].
Proof.
  intros Ht Hd. unfold convert_csv, is_csv_dataset, first_dataset.
  rewrite Ht, Hd. reflexivity.
Qed.

(** Lines 81-93 when the conversion runs. *)
Lemma convert_csv_run (cfg : RunConfig) (d : DatasetDesc) (ds : list DatasetDesc)
      (prepared : string) (p : Process) :
  dataset_prepared_path cfg = Some prepared ->
  truthy prepared = true ->
  datasets cfg = d :: ds ->
  PyStr.endswith (path d) ".csv" = true ->
  let jsonl_file := jsonl_file_path prepared (path d) in
  convert_csv ext cfg p =
  mkRun (match converter_convert ext (path d) jsonl_file with
         | Return _ => Return (set_dataset_file cfg (Some jsonl_file))
         | Raise e => Raise e
         end)
        p
        [LogInfo ("Converting " ++ path d ++ " to " ++ jsonl_file ++ "...");
         Convert (path d) jsonl_file].
Proof.
  intros Hp Ht Hd Hc jsonl_file.
  unfold convert_csv, is_csv_dataset, first_dataset, as_str.
  rewrite Hp, Hd.
  change (truthy (Some prepared)) with (truthy prepared). rewrite Ht.
  cbv [bind ret emit call outcome final events app]. rewrite Hc.
  cbv [bind ret emit call outcome final events app].
  fold jsonl_file.
  destruct (converter_convert ext (path d) jsonl_file); reflexivity.
Qed.

End StepFacts.

(** ** The run of [do_cli] *)

Ltac bind_returns a :=
  match goal with
  | |- context [bind ?m ?f ?p] => rewrite (bind_Return m f p a eq_refl)
  end.

Ltac bind_raises e :=
  match goal with
  | |- context [bind ?m ?f ?p] => rewrite (bind_Raise m f p e eq_refl)
  end.

Section RunFacts.

Variable DEFAULT_DATASET_PREPARED_PATH : string.
Variable ext : Externals.

(** Lines 36-73 either raise, having produced preparatory events only, or
    hand the loaded configuration, marked as a preprocessing run and with
    its prepared path defaulted, to lines 75-115. *)
Lemma do_cli_phases (config : string) (kwargs : list (string * string)) (p : Process) :
  let r := do_cli DEFAULT_DATASET_PREPARED_PATH ext config kwargs p in
  (exists e, outcome r = Raise e /\ final r = p /\
             forallb preparatory (events r) = true)
  \/ (exists cfg0 cli_args pre,
        load_cfg ext config kwargs = Return cfg0 /\
        parse_args_into_dataclasses ext = Return cli_args /\
        forallb preparatory pre = true /\
        (truthy (dataset_prepared_path cfg0) = false ->
         In (LogWarning (default_path_warning DEFAULT_DATASET_PREPARED_PATH)) pre) /\
        r = prepend pre
              (prepare_datasets ext
                 (with_default_path DEFAULT_DATASET_PREPARED_PATH
                    (set_is_preprocess cfg0 true))
                 cli_args p)).
Proof.
  unfold do_cli.
  cbv zeta. bind_returns tt.
  cbn [emit events final].
  destruct (load_cfg ext config kwargs) as [cfg0|e] eqn:Hcfg.
  2:{ bind_raises e. left. exists e. now cbn. }
  bind_returns cfg0. cbn [call events final].
  destruct (check_accelerate_default_config ext) as [[]|e] eqn:Hacc.
  2:{ bind_raises e. left. exists e. now cbn. }
  bind_returns tt. cbn [call events final].
  destruct (check_user_token ext) as [[]|e] eqn:Htok.
  2:{ bind_raises e. left. exists e. now cbn. }
  bind_returns tt. cbn [call events final].
  destruct (parse_args_into_dataclasses ext) as [cli_args|e] eqn:Hargs.
  2:{ bind_raises e. left. exists e. now cbn. }
  bind_returns cli_args. cbn [call events final].
  set (cfg1 := set_is_preprocess cfg0 true).
  destruct (register_template_frame ext cfg1 p) as [Hfin Hprep].
  destruct (bind_cases (register_template ext cfg1)
              (fun _ => parsed_cfg <- default_prepared_path DEFAULT_DATASET_PREPARED_PATH cfg1 ;;
                        prepare_datasets ext parsed_cfg cli_args) p)
    as [(e & Ho & ->) | ([] & Ho & ->)].
  - left. exists e. cbn. rewrite Hfin, Hprep. auto.
  - rewrite Hfin.
    rewrite (bind_Return (default_prepared_path DEFAULT_DATASET_PREPARED_PATH cfg1) _ p
               (with_default_path DEFAULT_DATASET_PREPARED_PATH cfg1))
      by (now rewrite default_prepared_path_run).
    rewrite default_prepared_path_run. cbn [events final].
    rewrite !prepend_prepend.
    right. exists cfg0, cli_args. eexists.
    split; [reflexivity|]. split; [reflexivity|].
    split; [|split; [|reflexivity]].
    + rewrite !forallb_app, Hprep.
      now destruct (truthy (dataset_prepared_path cfg1)).
    + intros Hf. change (dataset_prepared_path cfg1) with (dataset_prepared_path cfg0).
      rewrite Hf. apply in_or_app. right. now left.
Qed.

(** Lines 81-93 leave the process alone and produce no loader call and no
    probe. *)
Lemma convert_csv_frame (cfg : RunConfig) (p : Process) :
  final (convert_csv ext cfg p) = p /\
  forallb (fun e => negb (is_loader_call e) && negb (is_probe_call e))
          (events (convert_csv ext cfg p)) = true.
Proof.
  destruct (truthy (dataset_prepared_path cfg)) eqn:Ht.
  2:{ now rewrite convert_csv_no_prepared_path. }
  destruct (datasets cfg) as [|d ds] eqn:Hd.
  { now rewrite convert_csv_no_dataset. }
  destruct (PyStr.endswith (path d) ".csv") eqn:Hc.
  2:{ now rewrite (convert_csv_skip ext cfg d ds). }
  destruct (dataset_prepared_path cfg) as [prepared|] eqn:Hp; [|discriminate].
  now rewrite (convert_csv_run ext cfg d ds prepared p Hp Ht Hd Hc).
Qed.

(** Lines 95-115 in closed form. *)
Lemma report_run (cfg : RunConfig) (cli_args : CliArgs) (p : Process) :
  (probe_weights ext cfg cli_args ;;
   emit (LogInfo (success_message cfg)) ;;
   ret cfg) p =
  if download cli_args then
    match probe_outcome (from_pretrained ext (base_model cfg)) with
    | Return _ =>
        mkRun (Return cfg) p
              (probe_events (base_model cfg) ++ [LogInfo (success_message cfg)])
    | Raise e => mkRun (Raise e) p (probe_events (base_model cfg))
    end
  else mkRun (Return cfg) p [LogInfo (success_message cfg)].
Proof.
  unfold bind at 1. rewrite probe_weights_run.
  destruct (download cli_args); cbn [outcome final events].
  - destruct (probe_outcome (from_pretrained ext (base_model cfg))) as [[]|e];
      reflexivity.
  - reflexivity.
Qed.

(** Lines 75-115: the run of the loader, then of the conversion, then the
    report. *)
Lemma prepare_datasets_run (cfg : RunConfig) (cli_args : CliArgs) (p : Process) :
  prepare_datasets ext cfg cli_args p =
  prepend [Enter DisableDatasetsCaching;
           LoadDatasets (which_loader cfg) cfg cli_args false;
           Exit DisableDatasetsCaching]
    (match loader_outcome ext cfg cli_args with
     | Raise e => mkRun (Raise e) p []
     | Return _ =>
         match outcome (convert_csv ext cfg p) with
         | Raise e => mkRun (Raise e) p (events (convert_csv ext cfg p))
         | Return cfg' =>
             prepend (events (convert_csv ext cfg p))
               ((probe_weights ext cfg' cli_args ;;
                 emit (LogInfo (success_message cfg')) ;;
                 ret cfg') p)
         end
     end).
Proof.
  unfold prepare_datasets.
  destruct (convert_csv_frame cfg p) as [Hfin _].
  destruct (loader_outcome ext cfg cli_args) as [[]|e] eqn:Hl.
  - rewrite (bind_Return (materialize ext cfg cli_args) _ p tt)
      by (now rewrite materialize_run).
    rewrite materialize_run. cbn [events final].
    destruct (outcome (convert_csv ext cfg p)) as [cfg'|e] eqn:Hc.
    + rewrite (bind_Return (convert_csv ext cfg) _ p cfg' Hc).
      now rewrite Hfin.
    + rewrite (bind_Raise (convert_csv ext cfg) _ p e Hc).
      now rewrite Hfin.
  - rewrite (bind_Raise (materialize ext cfg cli_args) _ p e)
      by (now rewrite materialize_run).
    rewrite materialize_run. unfold prepend. cbn [outcome events final].
    now rewrite app_nil_r.
Qed.

Lemma filter_none {A : Type} (f : A -> bool) (l : list A) :
  forallb (fun x => negb (f x)) l = true -> filter f l = [].
Proof.
  induction l as [|x l IH]; simpl; [reflexivity|].
  intros H. apply andb_true_iff in H. destruct H as [Hx Hl].
  apply negb_true_iff in Hx. rewrite Hx. auto.
Qed.

Lemma forallb_weaken {A : Type} (f g : A -> bool) (l : list A) :
  (forall x, f x = true -> g x = true) ->
  forallb f l = true -> forallb g l = true.
Proof.
  intros Hfg H. rewrite forallb_forall in *. auto.
Qed.

Lemma preparatory_not_loader (l : list Event) :
  forallb preparatory l = true ->
  forallb (fun e => negb (is_loader_call e)) l = true.
Proof.
  apply forallb_weaken. intros e. unfold preparatory.
  now destruct (is_loader_call e).
Qed.

Lemma preparatory_not_convert (l : list Event) :
  forallb preparatory l = true ->
  forallb (fun e => negb (is_convert_call e)) l = true.
Proof.
  apply forallb_weaken. intros e. unfold preparatory.
  destruct (is_loader_call e); [discriminate|]. now destruct (is_convert_call e).
Qed.

Lemma preparatory_not_probe (l : list Event) :
  forallb preparatory l = true ->
  forallb (fun e => negb (is_probe_call e)) l = true.
Proof.
  apply forallb_weaken. intros e. unfold preparatory.
  destruct (is_loader_call e); [discriminate|].
  destruct (is_convert_call e); [discriminate|]. now destruct (is_probe_call e).
Qed.

(** After the three events of the materialization no loader is called. *)
Lemma prepare_datasets_events (cfg : RunConfig) (cli_args : CliArgs) (p : Process) :
  exists post,
    events (prepare_datasets ext cfg cli_args p)
    = (materialize_events cfg cli_args ++ post)%list /\
    forallb (fun e => negb (is_loader_call e)) post = true.
Proof.
  rewrite prepare_datasets_run. unfold prepend. cbn [events].
  eexists. split; [reflexivity|].
  destruct (convert_csv_frame cfg p) as [_ Hev].
  assert (Hc : forallb (fun e => negb (is_loader_call e))
                 (events (convert_csv ext cfg p)) = true).
  { revert Hev. apply forallb_weaken. intros e He.
    now apply andb_true_iff in He. }
  destruct (loader_outcome ext cfg cli_args) as [[]|e]; [|reflexivity].
  destruct (outcome (convert_csv ext cfg p)) as [cfg'|e]; [|exact Hc].
  cbn [events]. rewrite forallb_app, Hc, report_run.
  destruct (download cli_args); [|reflexivity].
  now destruct (probe_outcome (from_pretrained ext (base_model cfg'))).
Qed.

End RunFacts.

(** ** Template registration (lines 48-63) *)

Lemma eq_str_true (x : option string) (lit : string) :
  eq_str x lit = true <-> x = Some lit.
Proof.
  destruct x as [s|]; simpl.
  - rewrite String.eqb_eq. split; congruence.
  - split; discriminate.
Qed.

Lemma eq_str_false (x : option string) (lit : string) :
  eq_str x lit = false <-> x <> Some lit.
Proof.
  rewrite <- eq_str_true. destruct (eq_str x lit); split; congruence.
Qed.

(** C8, as the specification words it, fails: with [chat_template] set to
    [chatml] and a [default_system_message] that is present but empty, the
    registration is called without the message, in the step and in the
    whole run. *)
Lemma present_empty_message_is_not_passed :
  let cfg := Sample.cfg_csv in
  let r := register_template (Sample.env cfg true) cfg (start true) in
  chat_template cfg = Some "chatml" /\
  default_system_message cfg = Some "" /\
  events r = [RegisterChatmlTemplate None] /\
  ~ In (RegisterChatmlTemplate (default_system_message cfg)) (events r) /\
  filter is_registration
    (events (do_cli "last_run_prepared" (Sample.env cfg true) "config.yml" [] (start true)))
  = [RegisterChatmlTemplate None] /\
  ~ In (RegisterChatmlTemplate (default_system_message cfg))
       (events (do_cli "last_run_prepared" (Sample.env cfg true) "config.yml" []
                       (start true))).
Proof.
  cbv zeta. repeat split.
  - simpl. intros [H|[]]. discriminate H.
  - vm_compute. intros H.
    repeat (destruct H as [H|H]; [discriminate H|]). exact H.
Qed.

(** ** Dataset materialization (lines 75-79) *)

(** C5: while the loader runs caching is off, and when the step is over,
    whether the loader returned or raised, the caching switch is what it
    was before the step; an exception of the loader is passed on. *)
Theorem caching_disabled_and_restored (ext : Externals) (cfg : RunConfig)
        (cli_args : CliArgs) (p : Process) :
  let r := materialize ext cfg cli_args p in
  caching_enabled (final r) = caching_enabled p /\
  (forall which c a b, In (LoadDatasets which c a b) (events r) -> b = false) /\
  (exists which, In (LoadDatasets which cfg cli_args false) (events r)) /\
  (forall e, loader_outcome ext cfg cli_args = Raise e ->
             outcome r = Raise e /\ final r = p) /\
  (loader_outcome ext cfg cli_args = Return tt ->
   outcome r = Return tt /\ final r = p).
Proof.
  cbv zeta. rewrite materialize_run. cbn [final events outcome].
  split; [reflexivity|]. split; [|split; [|split]].
  - intros which c a b [H|[H|[H|[]]]]; congruence.
  - exists (which_loader cfg). right. left. reflexivity.
  - intros e ->. split; reflexivity.
  - intros ->. split; reflexivity.
Qed.

(** ** Whole runs *)

Lemma with_default_path_datasets (default : string) (cfg : RunConfig) :
  datasets (with_default_path default cfg) = datasets cfg.
Proof. unfold with_default_path. now destruct (truthy (dataset_prepared_path cfg)). Qed.

Lemma with_default_path_dataset_file (default : string) (cfg : RunConfig) :
  dataset_file (with_default_path default cfg) = dataset_file cfg.
Proof. unfold with_default_path. now destruct (truthy (dataset_prepared_path cfg)). Qed.

Lemma with_default_path_defaulted (default : string) (cfg : RunConfig) :
  truthy (dataset_prepared_path cfg) = false ->
  dataset_prepared_path (with_default_path default cfg) = Some default.
Proof. unfold with_default_path. now intros ->. Qed.

(** After lines 65-73 the prepared path is a non empty string, provided the
    default constant is one. *)
Lemma with_default_path_truthy (default : string) (cfg : RunConfig) :
  default <> "" ->
  exists prepared,
    dataset_prepared_path (with_default_path default cfg) = Some prepared /\
    truthy prepared = true.
Proof.
  intros Hd. unfold with_default_path.
  destruct (truthy (dataset_prepared_path cfg)) eqn:Ht.
  - destruct (dataset_prepared_path cfg) as [s|]; [|discriminate].
    exists s. split; [reflexivity | exact Ht].
  - exists default. split; [reflexivity|]. now destruct default.
Qed.

(** What a returned conversion step did to the configuration. *)
Lemma convert_csv_returns (ext : Externals) (cfg cfg' : RunConfig) (p : Process) :
  outcome (convert_csv ext cfg p) = Return cfg' ->
  cfg' = cfg \/ exists f, cfg' = set_dataset_file cfg (Some f).
Proof.
  destruct (truthy (dataset_prepared_path cfg)) eqn:Ht.
  2:{ rewrite convert_csv_no_prepared_path by assumption.
      cbn. intros [= <-]. now left. }
  destruct (datasets cfg) as [|d ds] eqn:Hd.
  { rewrite convert_csv_no_dataset by assumption. discriminate. }
  destruct (PyStr.endswith (path d) ".csv") eqn:Hc.
  2:{ rewrite (convert_csv_skip ext cfg d ds) by assumption.
      cbn. intros [= <-]. now left. }
  destruct (dataset_prepared_path cfg) as [prepared|] eqn:Hp; [|discriminate].
  rewrite (convert_csv_run ext cfg d ds prepared p Hp Ht Hd Hc). cbn.
  destruct (converter_convert ext (path d) _); [|discriminate].
  intros [= <-]. right. eexists. reflexivity.
Qed.

(** The shape of a run that returns. *)
Lemma do_cli_returns (default : string) (ext : Externals) (config : string)
      (kwargs : list (string * string)) (p : Process) (cfg' : RunConfig) :
  outcome (do_cli default ext config kwargs p) = Return cfg' ->
  exists cfg0 cli_args pre,
    load_cfg ext config kwargs = Return cfg0 /\
    parse_args_into_dataclasses ext = Return cli_args /\
    forallb preparatory pre = true /\
    loader_outcome ext (with_default_path default (set_is_preprocess cfg0 true)) cli_args
      = Return tt /\
    outcome (convert_csv ext (with_default_path default (set_is_preprocess cfg0 true)) p)
      = Return cfg' /\
    events (do_cli default ext config kwargs p)
      = (pre
         ++ materialize_events (with_default_path default (set_is_preprocess cfg0 true)) cli_args
         ++ events (convert_csv ext (with_default_path default (set_is_preprocess cfg0 true)) p)
         ++ (if download cli_args then probe_events (base_model cfg') else [])
         ++ [LogInfo (success_message cfg')])%list.
Proof.
  destruct (do_cli_phases default ext config kwargs p)
    as [(e & He & _) | (cfg0 & cli_args & pre & Hcfg & Hargs & Hpre & _ & ->)].
  { rewrite He. discriminate. }
  rewrite prepare_datasets_run. unfold prepend at 1 2. cbn [outcome events].
  intros H. exists cfg0, cli_args, pre.
  split; [exact Hcfg|]. split; [exact Hargs|]. split; [exact Hpre|].
  set (cfg1 := with_default_path default (set_is_preprocess cfg0 true)) in *.
  destruct (loader_outcome ext cfg1 cli_args) as [[]|e]; [|discriminate H].
  split; [reflexivity|].
  destruct (outcome (convert_csv ext cfg1 p)) as [cfg2|e]; [|discriminate H].
  rewrite report_run in *. unfold prepend in *. cbn [outcome events] in *.
  destruct (download cli_args).
  - destruct (probe_outcome (from_pretrained ext (base_model cfg2))) as [[]|e];
      [|discriminate H].
    cbn in H. injection H as <-. split; reflexivity.
  - cbn in H. injection H as <-. split; reflexivity.
Qed.

Lemma not_in_of_forallb (f : Event -> bool) (l : list Event) (e : Event) :
  forallb (fun x => negb (f x)) l = true -> f e = true -> ~ In e l.
Proof.
  intros H He Hin. rewrite forallb_forall in H.
  specialize (H e Hin). rewrite He in H. discriminate.
Qed.

(** C4: the materialization step calls the loader that [rl] selects, the
    reinforcement learning loader when [rl] is truthy and the standard
    loader otherwise, once, between the entry and the exit of the caching
    scope; and a whole run either raises before any loader is called or
    has exactly that one loader call in its trace. *)
Theorem loader_dispatch (default : string) (ext : Externals) (cfg : RunConfig)
        (cli_args : CliArgs) (p : Process) (config : string)
        (kwargs : list (string * string)) :
  materialize ext cfg cli_args p
    = mkRun (if truthy (rl cfg) then load_rl_datasets ext cfg cli_args
             else load_datasets ext cfg cli_args)
            p
            [Enter DisableDatasetsCaching;
             LoadDatasets (if truthy (rl cfg) then RLLoader else StandardLoader)
                          cfg cli_args false;
             Exit DisableDatasetsCaching]
  /\ ((exists e, outcome (do_cli default ext config kwargs p) = Raise e /\
                 filter is_loader_call (events (do_cli default ext config kwargs p)) = [])
      \/ (exists cfg1 args pre post,
            events (do_cli default ext config kwargs p)
              = (pre ++ materialize_events cfg1 args ++ post)%list /\
            filter is_loader_call pre = [] /\
            filter is_loader_call post = [] /\
            filter is_loader_call (events (do_cli default ext config kwargs p))
              = [LoadDatasets (which_loader cfg1) cfg1 args false])).
Proof.
  split.
  - rewrite materialize_run. unfold loader_outcome, which_loader.
    now destruct (truthy (rl cfg)).
  - destruct (do_cli_phases default ext config kwargs p)
      as [(e & He & _ & Hev) | (cfg0 & args & pre & _ & _ & Hpre & _ & ->)].
    + left. exists e. split; [exact He|].
      apply filter_none, preparatory_not_loader, Hev.
    + right.
      destruct (prepare_datasets_events ext
                  (with_default_path default (set_is_preprocess cfg0 true)) args p)
        as (post & Hevents & Hpost).
      exists (with_default_path default (set_is_preprocess cfg0 true)), args, pre, post.
      apply preparatory_not_loader, filter_none in Hpre.
      apply filter_none in Hpost.
      unfold prepend. cbn [events]. rewrite Hevents.
      repeat split; try assumption.
      rewrite !filter_app, Hpre, Hpost. reflexivity.
Qed.

(** C9: in a run whose parsed arguments have [download] false the probe is
    not called: no [from_pretrained] call is in the trace, for any model. *)
Theorem no_probe_without_download (default : string) (ext : Externals)
        (config : string) (kwargs : list (string * string)) (p : Process)
        (cli_args : CliArgs) :
  parse_args_into_dataclasses ext = Return cli_args ->
  download cli_args = false ->
  forall model_name trust,
    ~ In (FromPretrained model_name trust) (events (do_cli default ext config kwargs p)).
Proof.
  intros Hargs Hdl model_name trust.
  apply (not_in_of_forallb is_probe_call); [|reflexivity].
  destruct (do_cli_phases default ext config kwargs p)
    as [(e & _ & _ & Hev) | (cfg0 & args & pre & _ & Hargs' & Hpre & _ & ->)].
  { now apply preparatory_not_probe. }
  rewrite Hargs in Hargs'. injection Hargs' as <-.
  rewrite prepare_datasets_run. unfold prepend at 1 2. cbn [events].
  rewrite !forallb_app. rewrite (preparatory_not_probe _ Hpre). cbn [forallb andb].
  set (cfg1 := with_default_path default (set_is_preprocess cfg0 true)).
  destruct (convert_csv_frame ext cfg1 p) as [_ Hev].
  assert (Hc : forallb (fun e => negb (is_probe_call e))
                 (events (convert_csv ext cfg1 p)) = true).
  { revert Hev. apply forallb_weaken. intros e He.
    now apply andb_true_iff in He. }
  cbn.
  destruct (loader_outcome ext cfg1 cli_args) as [[]|e]; [|reflexivity].
  destruct (outcome (convert_csv ext cfg1 p)) as [cfg2|e]; [|exact Hc].
  rewrite report_run, Hdl. unfold prepend. cbn [events].
  rewrite forallb_app, Hc. reflexivity.
Qed.

Lemma no_probe_without_download_witness :
  parse_args_into_dataclasses (Sample.env Sample.cfg_json false) = Return (mkArgs false) /\
  download (mkArgs false) = false /\
  forall model_name trust,
    ~ In (FromPretrained model_name trust)
         (events (do_cli "last_run_prepared" (Sample.env Sample.cfg_json false)
                         "config.yml" [] (start true))).
Proof.
  split; [reflexivity|]. split; [reflexivity|].
  apply (no_probe_without_download "last_run_prepared" (Sample.env Sample.cfg_json false)
           "config.yml" [] (start true) (mkArgs false)); reflexivity.
Defined.

(** C7: when the first dataset's path does not end in [.csv], the
    conversion step is the identity (it returns the configuration it was
    given and produces no event), no run calls the converter, and the run's
    last configuration has the [datasets] and the [dataset_file] that were
    loaded. *)
Theorem no_conversion_without_csv (default : string) (ext : Externals)
        (config : string) (kwargs : list (string * string)) (p : Process)
        (cfg0 : RunConfig) (d : DatasetDesc) (ds : list DatasetDesc) :
  load_cfg ext config kwargs = Return cfg0 ->
  datasets cfg0 = d :: ds ->
  PyStr.endswith (path d) ".csv" = false ->
  convert_csv ext (with_default_path default (set_is_preprocess cfg0 true)) p
    = mkRun (Return (with_default_path default (set_is_preprocess cfg0 true))) p []
  /\ (forall csv_file jsonl_file,
        ~ In (Convert csv_file jsonl_file) (events (do_cli default ext config kwargs p)))
  /\ (forall cfg',
        outcome (do_cli default ext config kwargs p) = Return cfg' ->
        datasets cfg' = datasets cfg0 /\ dataset_file cfg' = dataset_file cfg0).
Proof.
  intros Hcfg Hd Hc.
  assert (Hskip : forall q,
            convert_csv ext (with_default_path default (set_is_preprocess cfg0 true)) q
            = mkRun (Return (with_default_path default (set_is_preprocess cfg0 true))) q []).
  { intros q. apply (convert_csv_skip ext _ d ds); [|exact Hc].
    now rewrite with_default_path_datasets. }
  split; [apply Hskip|]. split.
  - intros csv_file jsonl_file.
    apply (not_in_of_forallb is_convert_call); [|reflexivity].
    destruct (do_cli_phases default ext config kwargs p)
      as [(e & _ & _ & Hev) | (cfg0' & args & pre & Hcfg' & _ & Hpre & _ & ->)].
    { now apply preparatory_not_convert. }
    rewrite Hcfg in Hcfg'. injection Hcfg' as <-.
    rewrite prepare_datasets_run, Hskip. unfold prepend at 1 2. cbn [events outcome].
    rewrite !forallb_app, (preparatory_not_convert _ Hpre). cbn [forallb andb].
    cbn.
    destruct (loader_outcome ext _ args) as [[]|e]; [|reflexivity].
    rewrite report_run. unfold prepend. cbn [events app].
    destruct (download args); [|reflexivity].
    now destruct (probe_outcome (from_pretrained ext _)).
  - intros cfg' Hret.
    apply do_cli_returns in Hret.
    destruct Hret as (cfg0' & args & pre & Hcfg' & _ & _ & _ & Hconv & _).
    rewrite Hcfg in Hcfg'. injection Hcfg' as <-.
    rewrite Hskip in Hconv. cbn in Hconv. injection Hconv as <-.
    now rewrite with_default_path_datasets, with_default_path_dataset_file.
Qed.

Lemma no_conversion_without_csv_witness :
  convert_csv (Sample.env Sample.cfg_json true)
      (with_default_path "last_run_prepared" (set_is_preprocess Sample.cfg_json true))
      (start true)
    = mkRun (Return (with_default_path "last_run_prepared"
                       (set_is_preprocess Sample.cfg_json true)))
            (start true) []
  /\ (forall csv_file jsonl_file,
        ~ In (Convert csv_file jsonl_file)
             (events (do_cli "last_run_prepared" (Sample.env Sample.cfg_json true)
                             "config.yml" [] (start true))))
  /\ (forall cfg',
        outcome (do_cli "last_run_prepared" (Sample.env Sample.cfg_json true)
                        "config.yml" [] (start true)) = Return cfg' ->
        datasets cfg' = datasets Sample.cfg_json /\
        dataset_file cfg' = dataset_file Sample.cfg_json).
Proof.
  apply (no_conversion_without_csv "last_run_prepared" (Sample.env Sample.cfg_json true)
           "config.yml" [] (start true) Sample.cfg_json
           (mkDataset "data/train.json") []); reflexivity.
Defined.

(** C6: when the loaded configuration has an empty [dataset_prepared_path]
    (unset or the empty string), lines 65-73 return, having logged one
    warning and assigned the default constant; every loader call of the
    run is then made with [dataset_prepared_path] equal to the constant,
    hence not empty, and after the warning; and a run that returns ends
    with the constant in [dataset_prepared_path]. *)
Theorem default_prepared_path_applied (default : string) (ext : Externals)
        (config : string) (kwargs : list (string * string)) (p : Process)
        (cfg0 : RunConfig) :
  default <> "" ->
  load_cfg ext config kwargs = Return cfg0 ->
  truthy (dataset_prepared_path cfg0) = false ->
  default_prepared_path default (set_is_preprocess cfg0 true) p
    = mkRun (Return (set_dataset_prepared_path (set_is_preprocess cfg0 true) (Some default)))
            p [LogWarning (default_path_warning default)]
  /\ (forall which cfg cli_args b,
        In (LoadDatasets which cfg cli_args b) (events (do_cli default ext config kwargs p)) ->
        dataset_prepared_path cfg = Some default /\
        truthy (dataset_prepared_path cfg) = true /\
        exists pre post,
          events (do_cli default ext config kwargs p)
            = (pre ++ LoadDatasets which cfg cli_args b :: post)%list /\
          In (LogWarning (default_path_warning default)) pre)
  /\ (forall cfg',
        outcome (do_cli default ext config kwargs p) = Return cfg' ->
        dataset_prepared_path cfg' = Some default).
Proof.
  intros Hdef Hcfg Hempty.
  assert (Hp1 : dataset_prepared_path
                  (with_default_path default (set_is_preprocess cfg0 true)) = Some default).
  { now apply with_default_path_defaulted. }
  split; [|split].
  - rewrite default_prepared_path_run. unfold with_default_path.
    change (dataset_prepared_path (set_is_preprocess cfg0 true))
      with (dataset_prepared_path cfg0).
    now rewrite Hempty.
  - intros which cfg cli_args b Hin.
    destruct (do_cli_phases default ext config kwargs p)
      as [(e & _ & _ & Hev) | (cfg0' & args & pre & Hcfg' & _ & Hpre & Hwarn & Hrun)].
    { exfalso. revert Hin.
      apply (not_in_of_forallb is_loader_call); [|reflexivity].
      now apply preparatory_not_loader. }
    rewrite Hcfg in Hcfg'. injection Hcfg' as <-.
    destruct (prepare_datasets_events ext
                (with_default_path default (set_is_preprocess cfg0 true)) args p)
      as (post & Hevents & Hpost).
    rewrite Hrun in *. unfold prepend in *. cbn [events] in *.
    rewrite Hevents in *. unfold materialize_events in *.
    apply in_app_or in Hin. destruct Hin as [Hin|Hin].
    { exfalso. revert Hin.
      apply (not_in_of_forallb is_loader_call); [|reflexivity].
      now apply preparatory_not_loader. }
    cbn [app] in Hin.
    destruct Hin as [Hin|[Hin|[Hin|Hin]]]; try discriminate Hin.
    2:{ exfalso. revert Hin.
        now apply (not_in_of_forallb is_loader_call). }
    injection Hin as <- <- <- <-.
    split; [exact Hp1|]. split.
    + rewrite Hp1. now destruct default.
    + exists (pre ++ [Enter DisableDatasetsCaching])%list, (Exit DisableDatasetsCaching :: post).
      split.
      * now rewrite <- app_assoc.
      * apply in_or_app. left. now apply Hwarn.
  - intros cfg' Hret.
    apply do_cli_returns in Hret.
    destruct Hret as (cfg0' & args & pre & Hcfg' & _ & _ & _ & Hconv & _).
    rewrite Hcfg in Hcfg'. injection Hcfg' as <-.
    apply convert_csv_returns in Hconv.
    destruct Hconv as [-> | [f ->]]; exact Hp1.
Qed.

Lemma default_prepared_path_applied_witness :
  truthy (dataset_prepared_path Sample.cfg_json) = false /\
  (forall which cfg cli_args b,
     In (LoadDatasets which cfg cli_args b)
        (events (do_cli "last_run_prepared" (Sample.env Sample.cfg_json true)
                        "config.yml" [] (start true))) ->
     dataset_prepared_path cfg = Some "last_run_prepared") /\
  (forall cfg',
     outcome (do_cli "last_run_prepared" (Sample.env Sample.cfg_json true)
                     "config.yml" [] (start true)) = Return cfg' ->
     dataset_prepared_path cfg' = Some "last_run_prepared").
Proof.
  split; [reflexivity|].
  assert (H := default_prepared_path_applied "last_run_prepared"
                 (Sample.env Sample.cfg_json true) "config.yml" [] (start true)
                 Sample.cfg_json).
  split.
  - intros which cfg cli_args b Hin. apply H in Hin.
    + exact (proj1 Hin).
    + discriminate.
    + reflexivity.
    + reflexivity.
  - apply H; [discriminate | reflexivity | reflexivity].
Defined.

(** C1, as the specification words it, fails: after a run on a
    configuration whose first dataset is [data/train.csv] the field
    [dataset_file] names the artifact, but [datasets[0].path] still names
    the CSV file. *)
Lemma csv_path_stays_in_datasets :
  exists cfg',
    outcome (do_cli "last_run_prepared" (Sample.env Sample.cfg_csv true)
                    "config.yml" [] (start true)) = Return cfg' /\
    hd_error (datasets Sample.cfg_csv) = Some (mkDataset "data/train.csv") /\
    PyStr.endswith "data/train.csv" ".csv" = true /\
    dataset_file cfg' = Some "out/data/train.jsonl" /\
    hd_error (datasets cfg') = Some (mkDataset "data/train.csv") /\
    ~ points_only_at cfg' "out/data/train.jsonl".
Proof.
  eexists. split; [vm_compute; reflexivity|].
  repeat split.
  intros [_ H]. specialize (H _ eq_refl). discriminate H.
Qed.

(** C1 (amended): in a run whose first dataset's path ends in [.csv] (the
    default prepared path constant not being empty), the conversion step
    logs, calls the converter on the CSV path and the artifact path, and,
    when the converter returns, sets [dataset_file] to the artifact path;
    a run that returns ends with [dataset_file] naming the artifact, while
    [datasets], hence [datasets[0].path], is as loaded and still names the
    CSV file. *)
Theorem conversion_sets_dataset_file (default : string) (ext : Externals)
        (config : string) (kwargs : list (string * string)) (p : Process)
        (cfg0 : RunConfig) (d : DatasetDesc) (ds : list DatasetDesc) :
  default <> "" ->
  load_cfg ext config kwargs = Return cfg0 ->
  datasets cfg0 = d :: ds ->
  PyStr.endswith (path d) ".csv" = true ->
  exists prepared,
    dataset_prepared_path (with_default_path default (set_is_preprocess cfg0 true))
      = Some prepared /\
    convert_csv ext (with_default_path default (set_is_preprocess cfg0 true)) p
      = mkRun (match converter_convert ext (path d) (jsonl_file_path prepared (path d)) with
               | Return _ =>
                   Return (set_dataset_file
                             (with_default_path default (set_is_preprocess cfg0 true))
                             (Some (jsonl_file_path prepared (path d))))
               | Raise e => Raise e
               end)
              p
              [LogInfo ("Converting " ++ path d ++ " to "
                        ++ jsonl_file_path prepared (path d) ++ "...");
               Convert (path d) (jsonl_file_path prepared (path d))] /\
    forall cfg',
      outcome (do_cli default ext config kwargs p) = Return cfg' ->
      dataset_prepared_path cfg' = Some prepared /\
      dataset_file cfg' = Some (jsonl_file_path prepared (path d)) /\
      datasets cfg' = d :: ds /\
      In (Convert (path d) (jsonl_file_path prepared (path d)))
         (events (do_cli default ext config kwargs p)).
Proof.
  intros Hdef Hcfg Hd Hc.
  set (cfg1 := with_default_path default (set_is_preprocess cfg0 true)).
  destruct (with_default_path_truthy default (set_is_preprocess cfg0 true) Hdef)
    as (prepared & Hp & Ht).
  fold cfg1 in Hp.
  assert (Hd1 : datasets cfg1 = d :: ds).
  { unfold cfg1. now rewrite with_default_path_datasets. }
  exists prepared. split; [exact Hp|].
  pose proof (convert_csv_run ext cfg1 d ds prepared p Hp Ht Hd1 Hc) as Hconv.
  cbv zeta in Hconv. split; [exact Hconv|].
  intros cfg' Hret.
  apply do_cli_returns in Hret.
  destruct Hret as (cfg0' & args & pre & Hcfg' & _ & _ & _ & Hout & Hev).
  rewrite Hcfg in Hcfg'. injection Hcfg' as <-.
  fold cfg1 in Hout, Hev. rewrite Hconv in Hout, Hev. cbn [outcome events] in Hout, Hev.
  destruct (converter_convert ext (path d) (jsonl_file_path prepared (path d)));
    [|discriminate Hout].
  injection Hout as <-.
  split; [exact Hp|]. split; [reflexivity|]. split; [exact Hd1|].
  rewrite Hev. apply in_or_app. right. apply in_or_app. right.
  apply in_or_app. left. right. left. reflexivity.
Qed.

Lemma conversion_sets_dataset_file_witness :
  exists prepared,
    dataset_prepared_path
      (with_default_path "last_run_prepared" (set_is_preprocess Sample.cfg_csv true))
      = Some prepared /\
    dataset_file
      (set_dataset_file
         (with_default_path "last_run_prepared" (set_is_preprocess Sample.cfg_csv true))
         (Some (jsonl_file_path prepared "data/train.csv")))
      = Some "out/data/train.jsonl".
Proof.
  destruct (conversion_sets_dataset_file "last_run_prepared"
              (Sample.env Sample.cfg_csv true) "config.yml" [] (start true)
              Sample.cfg_csv (mkDataset "data/train.csv") [])
    as (prepared & Hp & _); [discriminate | reflexivity | reflexivity | reflexivity |].
  exists prepared. split; [exact Hp|].
  injection Hp as <-. reflexivity.
Defined.

(** ** Failure paths and the frame of a run *)

Section SetupFacts.

Variable default : string.
Variable ext : Externals.

(** Lines 38-46: a call that raises ends the run there; otherwise the run
    goes on with the registration. *)
Lemma do_cli_setup_cases (config : string) (kwargs : list (string * string)) (p : Process) :
  (exists e pre,
      do_cli default ext config kwargs p = mkRun (Raise e) p pre /\
      forallb is_setup_call pre = true /\
      (load_cfg ext config kwargs = Raise e \/
       check_accelerate_default_config ext = Raise e \/
       check_user_token ext = Raise e \/
       parse_args_into_dataclasses ext = Raise e))
  \/ (exists cfg0 cli_args,
        load_cfg ext config kwargs = Return cfg0 /\
        check_accelerate_default_config ext = Return tt /\
        check_user_token ext = Return tt /\
        parse_args_into_dataclasses ext = Return cli_args /\
        do_cli default ext config kwargs p
        = prepend (setup_events config kwargs)
            ((register_template ext (set_is_preprocess cfg0 true) ;;
              parsed_cfg <- default_prepared_path default (set_is_preprocess cfg0 true) ;;
              prepare_datasets ext parsed_cfg cli_args) p)).
Proof.
  unfold do_cli.
  bind_returns tt. cbn [emit events final].
  destruct (load_cfg ext config kwargs) as [cfg0|e] eqn:Hcfg.
  2:{ bind_raises e. left. exists e. eexists. split; [reflexivity|]. split; auto. }
  bind_returns cfg0. cbn [call events final].
  destruct (check_accelerate_default_config ext) as [[]|e] eqn:Hacc.
  2:{ bind_raises e. left. exists e. eexists. split; [reflexivity|]. split; auto. }
  bind_returns tt. cbn [call events final].
  destruct (check_user_token ext) as [[]|e] eqn:Htok.
  2:{ bind_raises e. left. exists e. eexists. split; [reflexivity|]. split; auto. }
  bind_returns tt. cbn [call events final].
  destruct (parse_args_into_dataclasses ext) as [cli_args|e] eqn:Hargs.
  2:{ bind_raises e. left. exists e. eexists. split; [reflexivity|]. split; auto. }
  bind_returns cli_args. cbn [call events final].
  right. exists cfg0, cli_args.
  do 4 (split; [reflexivity|]).
  now rewrite !prepend_prepend.
Qed.

(** Lines 48-73 and what follows: a registration that raises ends the run;
    otherwise the run goes on with lines 75-115. *)
Lemma after_setup_cases (cfg1 : RunConfig) (cli_args : CliArgs) (p : Process) :
  (exists e,
      outcome (register_template ext cfg1 p) = Raise e /\
      (register_template ext cfg1 ;;
       parsed_cfg <- default_prepared_path default cfg1 ;;
       prepare_datasets ext parsed_cfg cli_args) p
      = mkRun (Raise e) p (events (register_template ext cfg1 p)))
  \/ (outcome (register_template ext cfg1 p) = Return tt /\
      (register_template ext cfg1 ;;
       parsed_cfg <- default_prepared_path default cfg1 ;;
       prepare_datasets ext parsed_cfg cli_args) p
      = prepend (events (register_template ext cfg1 p) ++ warning_events default cfg1)
          (prepare_datasets ext (with_default_path default cfg1) cli_args p)).
Proof.
  destruct (register_template_frame ext cfg1 p) as [Hfin _].
  destruct (bind_cases (register_template ext cfg1)
              (fun _ => parsed_cfg <- default_prepared_path default cfg1 ;;
                        prepare_datasets ext parsed_cfg cli_args) p)
    as [(e & Ho & ->) | ([] & Ho & ->)].
  - left. exists e. now rewrite Hfin.
  - right. split; [exact Ho|]. rewrite Hfin.
    rewrite (bind_Return (default_prepared_path default cfg1) _ p
               (with_default_path default cfg1))
      by (now rewrite default_prepared_path_run).
    rewrite default_prepared_path_run. cbn [events final].
    now rewrite prepend_prepend.
Qed.

(** What lines 48-63 produce: at most one registration, nothing that
    belongs to the later steps, no colored log record. *)
Lemma register_template_events (cfg : RunConfig) (p : Process) :
  length (filter is_registration (events (register_template ext cfg p))) <= 1 /\
  forallb (fun e => negb (is_colored_info e)) (events (register_template ext cfg p)) = true.
Proof.
  unfold register_template.
  destruct (eq_str (chat_template cfg) "chatml");
    [| destruct (eq_str (chat_template cfg) "llama3")];
    destruct (truthy (default_system_message cfg));
    split; cbn; auto.
Qed.

(** The whole case analysis of lines 81-93. *)
Lemma convert_csv_cases (cfg : RunConfig) (p : Process) :
  convert_csv ext cfg p = mkRun (Return cfg) p []
  \/ (datasets cfg = [] /\ truthy (dataset_prepared_path cfg) = true /\
      convert_csv ext cfg p = mkRun (Raise (Error "IndexError")) p [])
  \/ (exists d ds prepared,
        datasets cfg = d :: ds /\
        dataset_prepared_path cfg = Some prepared /\
        PyStr.endswith (path d) ".csv" = true /\
        convert_csv ext cfg p
        = mkRun (match converter_convert ext (path d) (jsonl_file_path prepared (path d)) with
                 | Return _ =>
                     Return (set_dataset_file cfg (Some (jsonl_file_path prepared (path d))))
                 | Raise e => Raise e
                 end)
                p
                [LogInfo ("Converting " ++ path d ++ " to "
                          ++ jsonl_file_path prepared (path d) ++ "...");
                 Convert (path d) (jsonl_file_path prepared (path d))]).
Proof.
  destruct (truthy (dataset_prepared_path cfg)) eqn:Ht.
  2:{ left. now apply convert_csv_no_prepared_path. }
  destruct (datasets cfg) as [|d ds] eqn:Hd.
  { right. left. repeat split. now apply convert_csv_no_dataset. }
  destruct (PyStr.endswith (path d) ".csv") eqn:Hc.
  2:{ left. now apply (convert_csv_skip ext cfg d ds). }
  destruct (dataset_prepared_path cfg) as [prepared|] eqn:Hp; [|discriminate].
  right. right. exists d, ds, prepared. repeat split; try assumption.
  exact (convert_csv_run ext cfg d ds prepared p Hp Ht Hd Hc).
Qed.

End SetupFacts.

(** A loader call in the trace of a run is the call of lines 75-79: made
    after lines 36-73 returned, on the configuration they prepared. *)
Lemma loader_call_inv (default : string) (ext : Externals) (config : string)
      (kwargs : list (string * string)) (p : Process)
      (which : Loader) (cfg : RunConfig) (cli_args : CliArgs) (b : bool) :
  In (LoadDatasets which cfg cli_args b) (events (do_cli default ext config kwargs p)) ->
  exists cfg0 pre,
    load_cfg ext config kwargs = Return cfg0 /\
    parse_args_into_dataclasses ext = Return cli_args /\
    cfg = with_default_path default (set_is_preprocess cfg0 true) /\
    which = which_loader cfg /\
    b = false /\
    forallb preparatory pre = true /\
    do_cli default ext config kwargs p = prepend pre (prepare_datasets ext cfg cli_args p).
Proof.
  intros Hin.
  destruct (do_cli_phases default ext config kwargs p)
    as [(e & _ & _ & Hev) | (cfg0 & args & pre & Hcfg & Hargs & Hpre & _ & Hrun)].
  { exfalso. revert Hin. apply (not_in_of_forallb is_loader_call); [|reflexivity].
    now apply preparatory_not_loader. }
  destruct (prepare_datasets_events ext
              (with_default_path default (set_is_preprocess cfg0 true)) args p)
    as (post & Hevents & Hpost).
  rewrite Hrun in Hin. unfold prepend in Hin. cbn [events] in Hin.
  rewrite Hevents in Hin. unfold materialize_events in Hin.
  apply in_app_or in Hin. destruct Hin as [Hin|Hin].
  { exfalso. revert Hin. apply (not_in_of_forallb is_loader_call); [|reflexivity].
    now apply preparatory_not_loader. }
  cbn [app] in Hin.
  destruct Hin as [Hin|[Hin|[Hin|Hin]]]; try discriminate Hin.
  2:{ exfalso. revert Hin. now apply (not_in_of_forallb is_loader_call). }
  injection Hin as Hw Hc Ha Hb. subst cfg cli_args b.
  exists cfg0, pre. repeat split; auto.
Qed.

(** X1: the loader is called on the loaded configuration marked as a
    preprocessing run and with its prepared path defaulted, with the
    parsed command line arguments; its [datasets] and [dataset_file] are
    the loaded ones, whatever the conversion of lines 81-93 does later. *)
Theorem loader_sees_prepared_config (default : string) (ext : Externals)
        (config : string) (kwargs : list (string * string)) (p : Process)
        (cfg0 : RunConfig) (which : Loader) (cfg : RunConfig)
        (cli_args : CliArgs) (b : bool) :
  load_cfg ext config kwargs = Return cfg0 ->
  In (LoadDatasets which cfg cli_args b) (events (do_cli default ext config kwargs p)) ->
  cfg = with_default_path default (set_is_preprocess cfg0 true) /\
  is_preprocess cfg = true /\
  datasets cfg = datasets cfg0 /\
  dataset_file cfg = dataset_file cfg0 /\
  rl cfg = rl cfg0 /\
  parse_args_into_dataclasses ext = Return cli_args.
Proof.
  intros Hcfg Hin.
  apply loader_call_inv in Hin.
  destruct Hin as (cfg0' & pre & Hcfg' & Hargs & -> & _ & _ & _ & _).
  rewrite Hcfg in Hcfg'. injection Hcfg' as <-.
  split; [reflexivity|].
  unfold with_default_path.
  destruct (truthy (dataset_prepared_path (set_is_preprocess cfg0 true)));
    repeat split; auto.
Qed.

Lemma loader_sees_prepared_config_witness :
  load_cfg (Sample.env Sample.cfg_csv true) "config.yml" [] = Return Sample.cfg_csv /\
  is_preprocess (set_is_preprocess Sample.cfg_csv true) = true /\
  dataset_file (set_is_preprocess Sample.cfg_csv true) = None.
Proof.
  split; [reflexivity|].
  destruct (loader_sees_prepared_config "last_run_prepared"
              (Sample.env Sample.cfg_csv true) "config.yml" [] (start true)
              Sample.cfg_csv StandardLoader (set_is_preprocess Sample.cfg_csv true)
              (mkArgs true) false)
    as (_ & Hpre & _ & Hfile & _).
  - reflexivity.
  - vm_compute. do 7 right. left. reflexivity.
  - split; [exact Hpre | exact Hfile].
Defined.

(** X2: a loader that raises is fatal: the run raises the same exception
    as soon as the caching scope is left, and
    neither the converter nor the probe is called. *)
Theorem loader_failure_is_fatal (default : string) (ext : Externals)
        (config : string) (kwargs : list (string * string)) (p : Process)
        (which : Loader) (cfg : RunConfig) (cli_args : CliArgs) (b : bool)
        (e : PyExn) :
  In (LoadDatasets which cfg cli_args b) (events (do_cli default ext config kwargs p)) ->
  loader_outcome ext cfg cli_args = Raise e ->
  outcome (do_cli default ext config kwargs p) = Raise e /\
  exists pre,
    events (do_cli default ext config kwargs p)
      = (pre ++ materialize_events cfg cli_args)%list /\
    forallb preparatory pre = true.
Proof.
  intros Hin Hraise.
  apply loader_call_inv in Hin.
  destruct Hin as (cfg0 & pre & _ & _ & _ & _ & _ & Hpre & ->).
  rewrite prepare_datasets_run, Hraise. unfold prepend. cbn [outcome final events].
  split; [reflexivity|].
  exists pre. split; [|exact Hpre]. now rewrite app_nil_r.
Qed.

Lemma loader_failure_is_fatal_witness :
  outcome (do_cli "last_run_prepared" (Sample.env_loader_fails Sample.cfg_csv)
                  "config.yml" [] (start true))
    = Raise (Error "ValueError") /\
  exists pre,
    events (do_cli "last_run_prepared" (Sample.env_loader_fails Sample.cfg_csv)
                   "config.yml" [] (start true))
      = (pre ++ materialize_events (set_is_preprocess Sample.cfg_csv true) (mkArgs true))%list /\
    forallb preparatory pre = true.
Proof.
  apply (loader_failure_is_fatal "last_run_prepared" (Sample.env_loader_fails Sample.cfg_csv)
           "config.yml" [] (start true) StandardLoader
           (set_is_preprocess Sample.cfg_csv true) (mkArgs true) false (Error "ValueError")).
  - vm_compute. do 7 right. left. reflexivity.
  - reflexivity.
Defined.

(** A converter call in the trace of a run is the call of line 92: made
    after the loader returned, on the first dataset's path, which ends in
    [.csv], with the artifact path as target. *)
Lemma convert_call_inv (default : string) (ext : Externals) (config : string)
      (kwargs : list (string * string)) (p : Process) (a b : string) :
  In (Convert a b) (events (do_cli default ext config kwargs p)) ->
  exists cfg0 cli_args pre d ds prepared,
    load_cfg ext config kwargs = Return cfg0 /\
    parse_args_into_dataclasses ext = Return cli_args /\
    forallb preparatory pre = true /\
    loader_outcome ext (with_default_path default (set_is_preprocess cfg0 true)) cli_args
      = Return tt /\
    datasets cfg0 = d :: ds /\
    dataset_prepared_path (with_default_path default (set_is_preprocess cfg0 true))
      = Some prepared /\
    PyStr.endswith (path d) ".csv" = true /\
    a = path d /\
    b = jsonl_file_path prepared (path d) /\
    do_cli default ext config kwargs p
    = prepend (pre
               ++ materialize_events (with_default_path default (set_is_preprocess cfg0 true))
                                     cli_args
               ++ [LogInfo ("Converting " ++ a ++ " to " ++ b ++ "..."); Convert a b])
        (match converter_convert ext a b with
         | Raise e => mkRun (Raise e) p []
         | Return _ =>
             (probe_weights ext
                (set_dataset_file (with_default_path default (set_is_preprocess cfg0 true))
                                  (Some b))
                cli_args ;;
              emit (LogInfo (success_message
                       (set_dataset_file
                          (with_default_path default (set_is_preprocess cfg0 true))
                          (Some b)))) ;;
              ret (set_dataset_file (with_default_path default (set_is_preprocess cfg0 true))
                                    (Some b))) p
         end).
Proof.
  intros Hin.
  destruct (do_cli_phases default ext config kwargs p)
    as [(e & _ & _ & Hev) | (cfg0 & args & pre & Hcfg & Hargs & Hpre & _ & Hrun)].
  { exfalso. revert Hin. apply (not_in_of_forallb is_convert_call); [|reflexivity].
    now apply preparatory_not_convert. }
  set (cfg1 := with_default_path default (set_is_preprocess cfg0 true)) in *.
  rewrite Hrun, prepare_datasets_run in *. clear Hrun.
  unfold prepend at 1 2 in Hin. cbn [events] in Hin.
  apply in_app_or in Hin. destruct Hin as [Hin|Hin].
  { exfalso. revert Hin. apply (not_in_of_forallb is_convert_call); [|reflexivity].
    now apply preparatory_not_convert. }
  apply in_app_or in Hin. destruct Hin as [Hin|Hin].
  { exfalso. destruct Hin as [H|[H|[H|[]]]]; discriminate H. }
  destruct (loader_outcome ext cfg1 args) as [[]|e1] eqn:Hload; [|destruct Hin].
  assert (Hrep : forall c, ~ In (Convert a b)
            (events ((probe_weights ext c args ;;
                      emit (LogInfo (success_message c)) ;; ret c) p))).
  { intros c. apply (not_in_of_forallb is_convert_call); [|reflexivity].
    rewrite report_run. destruct (download args); [|reflexivity].
    now destruct (probe_outcome (from_pretrained ext (base_model c))). }
  destruct (convert_csv_cases ext cfg1 p)
    as [Hc | [(_ & _ & Hc) | (d & ds & prepared & Hd & Hp & Hcsv & Hc)]];
    rewrite Hc in *; cbn [outcome events] in *.
  - exfalso. unfold prepend in Hin. cbn [events app] in Hin. now apply Hrep in Hin.
  - destruct Hin.
  - assert (Hab : a = path d /\ b = jsonl_file_path prepared (path d)).
    { destruct (converter_convert ext (path d) (jsonl_file_path prepared (path d)));
        [unfold prepend in Hin; cbn [events] in Hin;
         apply in_app_or in Hin; destruct Hin as [Hin|Hin];
         [|now apply Hrep in Hin] |];
        (destruct Hin as [H|[H|[]]]; [discriminate H | injection H as <- <-; auto]). }
    destruct Hab as [-> ->].
    exists cfg0, args, pre, d, ds, prepared.
    split; [exact Hcfg|]. split; [exact Hargs|]. split; [exact Hpre|].
    split; [exact Hload|].
    split; [unfold cfg1 in Hd; now rewrite with_default_path_datasets in Hd|].
    split; [exact Hp|]. split; [exact Hcsv|]. split; [reflexivity|].
    split; [reflexivity|].
    rewrite !prepend_prepend.
    destruct (converter_convert ext (path d) (jsonl_file_path prepared (path d))).
    + rewrite prepend_prepend. now rewrite <- !app_assoc.
    + unfold prepend. cbn [outcome final events]. now rewrite app_nil_r, <- !app_assoc.
Qed.

(** X11: the converter is only called after the loader has returned, on
    the path of the first configured dataset, which ends in [.csv], and
    with the artifact path computed from the prepared path as target. *)
Theorem conversion_follows_materialization (default : string) (ext : Externals)
        (config : string) (kwargs : list (string * string)) (p : Process)
        (a b : string) :
  In (Convert a b) (events (do_cli default ext config kwargs p)) ->
  exists cfg0 cli_args pre post d ds prepared,
    load_cfg ext config kwargs = Return cfg0 /\
    datasets cfg0 = d :: ds /\
    a = path d /\
    PyStr.endswith a ".csv" = true /\
    dataset_prepared_path (with_default_path default (set_is_preprocess cfg0 true))
      = Some prepared /\
    b = jsonl_file_path prepared a /\
    loader_outcome ext (with_default_path default (set_is_preprocess cfg0 true)) cli_args
      = Return tt /\
    events (do_cli default ext config kwargs p)
      = (pre
         ++ materialize_events (with_default_path default (set_is_preprocess cfg0 true))
                               cli_args
         ++ LogInfo ("Converting " ++ a ++ " to " ++ b ++ "...") :: Convert a b :: post)%list /\
    forallb preparatory pre = true.
Proof.
  intros Hin. apply convert_call_inv in Hin.
  destruct Hin as (cfg0 & args & pre & d & ds & prepared & Hcfg & _ & Hpre & Hload
                   & Hd & Hp & Hcsv & -> & -> & Hrun).
  exists cfg0, args, pre.
  eexists. exists d, ds, prepared.
  do 7 (split; [first [assumption | reflexivity]|]).
  split; [|exact Hpre].
  rewrite Hrun. unfold prepend. cbn [events].
  rewrite <- !app_assoc. cbn [app]. reflexivity.
Qed.

Lemma conversion_follows_materialization_witness :
  exists cfg0 cli_args pre post d ds prepared,
    load_cfg (Sample.env Sample.cfg_csv false) "config.yml" [] = Return cfg0 /\
    datasets cfg0 = d :: ds /\
    "data/train.csv" = path d /\
    PyStr.endswith "data/train.csv" ".csv" = true /\
    dataset_prepared_path (with_default_path "last_run_prepared" (set_is_preprocess cfg0 true))
      = Some prepared /\
    "out/data/train.jsonl" = jsonl_file_path prepared "data/train.csv" /\
    loader_outcome (Sample.env Sample.cfg_csv false)
      (with_default_path "last_run_prepared" (set_is_preprocess cfg0 true)) cli_args
      = Return tt /\
    events (do_cli "last_run_prepared" (Sample.env Sample.cfg_csv false)
                   "config.yml" [] (start true))
      = (pre
         ++ materialize_events
              (with_default_path "last_run_prepared" (set_is_preprocess cfg0 true)) cli_args
         ++ LogInfo ("Converting " ++ "data/train.csv" ++ " to "
                     ++ "out/data/train.jsonl" ++ "...")
            :: Convert "data/train.csv" "out/data/train.jsonl" :: post)%list /\
    forallb preparatory pre = true.
Proof.
  apply (conversion_follows_materialization "last_run_prepared"
           (Sample.env Sample.cfg_csv false) "config.yml" [] (start true)
           "data/train.csv" "out/data/train.jsonl").
  vm_compute. do 10 right. left. reflexivity.
Defined.

(** X3: a converter that raises is fatal: the run raises the same
    exception right after the call; the probe
    is not called and the trace ends with the converter call. *)
Theorem converter_failure_is_fatal (default : string) (ext : Externals)
        (config : string) (kwargs : list (string * string)) (p : Process)
        (a b : string) (e : PyExn) :
  In (Convert a b) (events (do_cli default ext config kwargs p)) ->
  converter_convert ext a b = Raise e ->
  outcome (do_cli default ext config kwargs p) = Raise e /\
  (exists pre,
     events (do_cli default ext config kwargs p) = (pre ++ [Convert a b])%list /\
     forallb (fun ev => negb (is_probe_call ev)) pre = true).
Proof.
  intros Hin Hraise. apply convert_call_inv in Hin.
  destruct Hin as (cfg0 & args & pre & d & ds & prepared & _ & _ & Hpre & _
                   & _ & _ & _ & _ & _ & Hrun).
  rewrite Hrun, Hraise. unfold prepend. cbn [outcome final events].
  split; [reflexivity|].
  eexists. split.
  - rewrite app_nil_r.
    change [LogInfo ("Converting " ++ a ++ " to " ++ b ++ "..."); Convert a b]
      with ([LogInfo ("Converting " ++ a ++ " to " ++ b ++ "...")] ++ [Convert a b])%list.
    rewrite !app_assoc. reflexivity.
  - rewrite !forallb_app, (preparatory_not_probe _ Hpre). reflexivity.
Qed.

Lemma converter_failure_is_fatal_witness :
  outcome (do_cli "last_run_prepared" (Scenario.env_converter_fails Sample.cfg_csv)
                  "config.yml" [] (start true))
    = Raise (Error "FileNotFoundError") /\
  (exists pre,
     events (do_cli "last_run_prepared" (Scenario.env_converter_fails Sample.cfg_csv)
                    "config.yml" [] (start true))
       = (pre ++ [Convert "data/train.csv" "out/data/train.jsonl"])%list /\
     forallb (fun ev => negb (is_probe_call ev)) pre = true).
Proof.
  apply (converter_failure_is_fatal "last_run_prepared"
           (Scenario.env_converter_fails Sample.cfg_csv) "config.yml" [] (start true)
           "data/train.csv" "out/data/train.jsonl" (Error "FileNotFoundError")).
  - vm_compute. do 10 right. left. reflexivity.
  - reflexivity.
Defined.

(** X6: with no dataset configured (and a non empty default for the
    prepared path) a run never returns: once the loader has returned,
    [datasets[0]] on line 81 raises [IndexError], after the
    materialization and before any conversion, probe or report. *)
Theorem empty_datasets_raise_after_loading (default : string) (ext : Externals)
        (config : string) (kwargs : list (string * string)) (p : Process)
        (cfg0 : RunConfig) :
  default <> "" ->
  load_cfg ext config kwargs = Return cfg0 ->
  datasets cfg0 = [] ->
  (forall cfg', outcome (do_cli default ext config kwargs p) <> Return cfg') /\
  (forall which cfg cli_args b,
     In (LoadDatasets which cfg cli_args b) (events (do_cli default ext config kwargs p)) ->
     loader_outcome ext cfg cli_args = Return tt ->
     outcome (do_cli default ext config kwargs p) = Raise (Error "IndexError") /\
     exists pre,
       events (do_cli default ext config kwargs p)
         = (pre ++ materialize_events cfg cli_args)%list /\
       forallb preparatory pre = true).
Proof.
  intros Hdef Hcfg Hd.
  assert (Hconv : forall q,
            convert_csv ext (with_default_path default (set_is_preprocess cfg0 true)) q
            = mkRun (Raise (Error "IndexError")) q []).
  { intros q. apply convert_csv_no_dataset.
    - destruct (with_default_path_truthy default (set_is_preprocess cfg0 true) Hdef)
        as (prepared & -> & Ht). exact Ht.
    - now rewrite with_default_path_datasets. }
  split.
  - intros cfg' Hret. apply do_cli_returns in Hret.
    destruct Hret as (cfg0' & args & pre & Hcfg' & _ & _ & _ & Hout & _).
    rewrite Hcfg in Hcfg'. injection Hcfg' as <-.
    rewrite Hconv in Hout. discriminate Hout.
  - intros which cfg cli_args b Hin Hload.
    apply loader_call_inv in Hin.
    destruct Hin as (cfg0' & pre & Hcfg' & _ & -> & _ & _ & Hpre & ->).
    rewrite Hcfg in Hcfg'. injection Hcfg' as <-.
    rewrite prepare_datasets_run, Hload, Hconv. unfold prepend. cbn [outcome events].
    split; [reflexivity|]. exists pre. split; [|exact Hpre]. now rewrite app_nil_r.
Qed.

Lemma empty_datasets_raise_after_loading_witness :
  datasets Scenario.cfg_no_dataset = [] /\
  (forall cfg',
     outcome (do_cli "last_run_prepared" (Sample.env Scenario.cfg_no_dataset true)
                     "config.yml" [] (start true)) <> Return cfg').
Proof.
  split; [reflexivity|].
  apply (empty_datasets_raise_after_loading "last_run_prepared"
           (Sample.env Scenario.cfg_no_dataset true) "config.yml" [] (start true)
           Scenario.cfg_no_dataset); [discriminate | reflexivity | reflexivity].
Defined.

(** A probe call in the trace of a run is the call of lines 104-106: on
    the [base_model] of the configuration the conversion step left, with
    [trust_remote_code] set, after everything before it returned. *)
Lemma probe_call_inv (default : string) (ext : Externals) (config : string)
      (kwargs : list (string * string)) (p : Process) (model_name : string)
      (trust : bool) :
  In (FromPretrained model_name trust) (events (do_cli default ext config kwargs p)) ->
  exists cfg0 cfg' pre,
    load_cfg ext config kwargs = Return cfg0 /\
    model_name = base_model cfg0 /\
    base_model cfg' = base_model cfg0 /\
    trust = true /\
    forallb (fun ev => negb (is_probe_call ev)) pre = true /\
    do_cli default ext config kwargs p
    = prepend pre
        (match probe_outcome (from_pretrained ext model_name) with
         | Return _ =>
             mkRun (Return cfg') p
                   (probe_events model_name ++ [LogInfo (success_message cfg')])
         | Raise e => mkRun (Raise e) p (probe_events model_name)
         end).
Proof.
  intros Hin.
  destruct (do_cli_phases default ext config kwargs p)
    as [(e' & _ & _ & Hev) | (cfg0 & args & pre & Hcfg & _ & Hpre & _ & Hrun)].
  { exfalso. revert Hin. apply (not_in_of_forallb is_probe_call); [|reflexivity].
    now apply preparatory_not_probe. }
  set (cfg1 := with_default_path default (set_is_preprocess cfg0 true)) in *.
  rewrite Hrun, prepare_datasets_run in *. clear Hrun.
  destruct (convert_csv_frame ext cfg1 p) as [_ Hev].
  assert (Hc : forallb (fun ev => negb (is_probe_call ev))
                 (events (convert_csv ext cfg1 p)) = true).
  { revert Hev. apply forallb_weaken. intros x Hx. now apply andb_true_iff in Hx. }
  unfold prepend at 1 2 in Hin. cbn [events] in Hin.
  apply in_app_or in Hin. destruct Hin as [Hin|Hin].
  { exfalso. revert Hin. apply (not_in_of_forallb is_probe_call); [|reflexivity].
    now apply preparatory_not_probe. }
  apply in_app_or in Hin. destruct Hin as [Hin|Hin].
  { exfalso. destruct Hin as [H|[H|[H|[]]]]; discriminate H. }
  destruct (loader_outcome ext cfg1 args) as [[]|e1]; [|destruct Hin].
  destruct (outcome (convert_csv ext cfg1 p)) as [cfg2|e2] eqn:Hout.
  2:{ exfalso. revert Hin. now apply (not_in_of_forallb is_probe_call). }
  assert (Hbase : base_model cfg2 = base_model cfg0).
  { apply convert_csv_returns in Hout. destruct Hout as [-> | [f ->]];
      unfold cfg1, with_default_path;
      now destruct (truthy (dataset_prepared_path (set_is_preprocess cfg0 true))). }
  rewrite report_run in *. unfold prepend at 1 in Hin. cbn [events] in Hin.
  apply in_app_or in Hin. destruct Hin as [Hin|Hin].
  { exfalso. revert Hin. now apply (not_in_of_forallb is_probe_call). }
  destruct (download args); [|destruct Hin as [H|[]]; discriminate H].
  assert (Hm : model_name = base_model cfg2 /\ trust = true).
  { destruct (probe_outcome (from_pretrained ext (base_model cfg2))) as [[]|e3];
      cbn in Hin;
      repeat (destruct Hin as [Hin|Hin];
              [try discriminate Hin; injection Hin as <- <-; auto|]);
      destruct Hin. }
  destruct Hm as [-> ->].
  exists cfg0, cfg2. eexists.
  split; [exact Hcfg|]. split; [exact Hbase|]. split; [exact Hbase|].
  split; [reflexivity|].
  split; [|rewrite !prepend_prepend; reflexivity].
  rewrite !forallb_app, (preparatory_not_probe _ Hpre), Hc. reflexivity.
Qed.

(** X8: an exception of the probe that is not an instance of [Exception]
    (a [KeyboardInterrupt], a [SystemExit]) is not caught by line 107: it
    leaves [do_cli] after both scopes have been left, and the success
    report is not logged. *)
Theorem probe_interrupt_escapes (default : string) (ext : Externals)
        (config : string) (kwargs : list (string * string)) (p : Process)
        (model_name : string) (trust : bool) (e : PyExn) :
  In (FromPretrained model_name trust) (events (do_cli default ext config kwargs p)) ->
  from_pretrained ext model_name = Raise e ->
  is_Exception e = false ->
  outcome (do_cli default ext config kwargs p) = Raise e /\
  exists pre,
    events (do_cli default ext config kwargs p)
      = (pre ++ [FromPretrained model_name true; Exit InitEmptyWeights;
                 Exit CatchWarnings])%list.
Proof.
  intros Hin Hraise Hexc. apply probe_call_inv in Hin.
  destruct Hin as (cfg0 & cfg' & pre & _ & _ & _ & _ & _ & ->).
  rewrite Hraise. cbn [probe_outcome]. rewrite Hexc.
  unfold prepend, probe_events. cbn [outcome final events].
  split; [reflexivity|].
  exists (pre ++ [Enter CatchWarnings; SimpleFilter "ignore"; Enter InitEmptyWeights])%list.
  now rewrite <- app_assoc.
Qed.

Lemma probe_interrupt_escapes_witness :
  outcome (do_cli "last_run_prepared" (Sample.env_interrupted Sample.cfg_json)
                  "config.yml" [] (start true))
    = Raise (Interrupt "KeyboardInterrupt") /\
  exists pre,
    events (do_cli "last_run_prepared" (Sample.env_interrupted Sample.cfg_json)
                   "config.yml" [] (start true))
      = (pre ++ [FromPretrained "some/model" true; Exit InitEmptyWeights;
                 Exit CatchWarnings])%list.
Proof.
  apply (probe_interrupt_escapes "last_run_prepared" (Sample.env_interrupted Sample.cfg_json)
           "config.yml" [] (start true) "some/model" true (Interrupt "KeyboardInterrupt")).
  - vm_compute. do 14 right. left. reflexivity.
  - reflexivity.
  - reflexivity.
Defined.

(** X13: whenever the probe is called it is called once, on the
    [base_model] of the loaded configuration, with [trust_remote_code]
    set, and nothing was probed before. *)
Theorem probe_call_arguments (default : string) (ext : Externals)
        (config : string) (kwargs : list (string * string)) (p : Process)
        (model_name : string) (trust : bool) :
  In (FromPretrained model_name trust) (events (do_cli default ext config kwargs p)) ->
  exists cfg0,
    load_cfg ext config kwargs = Return cfg0 /\
    model_name = base_model cfg0 /\
    trust = true /\
    filter is_probe_call (events (do_cli default ext config kwargs p))
      = [FromPretrained (base_model cfg0) true].
Proof.
  intros Hin. apply probe_call_inv in Hin.
  destruct Hin as (cfg0 & cfg' & pre & Hcfg & -> & _ & -> & Hpre & ->).
  exists cfg0. do 3 (split; [first [assumption | reflexivity]|]).
  unfold prepend. cbn [events]. rewrite filter_app, (filter_none _ _ Hpre).
  now destruct (probe_outcome (from_pretrained ext (base_model cfg0))).
Qed.

Lemma probe_call_arguments_witness :
  exists cfg0,
    load_cfg (Sample.env Sample.cfg_csv true) "config.yml" [] = Return cfg0 /\
    "some/model" = base_model cfg0 /\
    true = true /\
    filter is_probe_call
      (events (do_cli "last_run_prepared" (Sample.env Sample.cfg_csv true)
                      "config.yml" [] (start true)))
      = [FromPretrained (base_model cfg0) true].
Proof.
  apply (probe_call_arguments "last_run_prepared" (Sample.env Sample.cfg_csv true)
           "config.yml" [] (start true) "some/model" true).
  vm_compute. do 14 right. left. reflexivity.
Defined.

(** Until the final report a run logs no colored info record. *)
Lemma raised_run_uncolored (default : string) (ext : Externals) (config : string)
      (kwargs : list (string * string)) (p : Process) (e : PyExn) :
  outcome (do_cli default ext config kwargs p) = Raise e ->
  forallb (fun ev => negb (is_colored_info ev))
          (events (do_cli default ext config kwargs p)) = true.
Proof.
  destruct (do_cli_setup_cases default ext config kwargs p)
    as [(e' & pre & -> & Hpre & _) | (cfg0 & args & _ & _ & _ & _ & ->)].
  { intros _. cbn [events]. revert Hpre. apply forallb_weaken.
    intros ev. now destruct ev. }
  set (cfg1 := set_is_preprocess cfg0 true).
  destruct (register_template_events ext cfg1 p) as [_ Hreg].
  destruct (after_setup_cases default ext cfg1 args p) as [(e' & _ & ->) | (_ & ->)].
  { intros _. unfold prepend. cbn [events]. rewrite forallb_app, Hreg. reflexivity. }
  rewrite prepare_datasets_run. unfold prepend at 1 2 3 4 5 6. cbn [outcome events].
  rewrite !forallb_app, Hreg.
  assert (Hw : forallb (fun ev => negb (is_colored_info ev)) (warning_events default cfg1)
               = true).
  { unfold warning_events. now destruct (truthy (dataset_prepared_path cfg1)). }
  rewrite Hw. cbn [setup_events materialize_events forallb is_colored_info negb andb].
  destruct (loader_outcome ext (with_default_path default cfg1) args) as [[]|e1];
    [|reflexivity].
  destruct (convert_csv_cases ext (with_default_path default cfg1) p)
    as [Hc | [(_ & _ & Hc) | (d & ds & prepared & _ & _ & _ & Hc)]];
    rewrite Hc; cbn [outcome events].
  - rewrite report_run. unfold prepend. cbn [outcome events app].
    destruct (download args); [|discriminate].
    destruct (probe_outcome (from_pretrained ext _)); [discriminate | reflexivity].
  - reflexivity.
  - destruct (converter_convert ext (path d) (jsonl_file_path prepared (path d)));
      [|reflexivity].
    rewrite report_run. unfold prepend. cbn [outcome events].
    destruct (download args); [|discriminate].
    destruct (probe_outcome (from_pretrained ext _)); [discriminate | reflexivity].
Qed.

(** X9: the success report is logged exactly by the runs that return: a
    run that raises, at whatever step, does not log it. *)
Theorem success_report_iff_returns (default : string) (ext : Externals)
        (config : string) (kwargs : list (string * string)) (p : Process) :
  (exists cfg', outcome (do_cli default ext config kwargs p) = Return cfg')
  <-> (exists cfg, In (LogInfo (success_message cfg))
                      (events (do_cli default ext config kwargs p))).
Proof.
  split.
  - intros [cfg' Hret]. exists cfg'.
    apply do_cli_returns in Hret.
    destruct Hret as (cfg0 & args & pre & _ & _ & _ & _ & _ & ->).
    apply in_or_app. right. apply in_or_app. right. apply in_or_app. right.
    apply in_or_app. right. now left.
  - intros [cfg Hin].
    destruct (outcome (do_cli default ext config kwargs p)) as [cfg'|e] eqn:Hout.
    + now exists cfg'.
    + exfalso. revert Hin.
      apply (not_in_of_forallb is_colored_info); [|reflexivity].
      now apply (raised_run_uncolored default ext config kwargs p e).
Qed.

Lemma setup_calls_only (l : list Event) :
  forallb is_setup_call l = true ->
  filter is_registration l = [] /\ filter is_loader_call l = [].
Proof.
  intros H. split; apply filter_none; revert H; apply forallb_weaken;
    intros ev; now destruct ev.
Qed.

(** Lines 75-115 register nothing. *)
Lemma prepare_datasets_no_registration (ext : Externals) (cfg : RunConfig)
      (cli_args : CliArgs) (p : Process) :
  filter is_registration (events (prepare_datasets ext cfg cli_args p)) = [].
Proof.
  rewrite prepare_datasets_run. unfold prepend at 1. cbn [events app filter is_registration].
  destruct (loader_outcome ext cfg cli_args) as [[]|e1]; [|reflexivity].
  destruct (convert_csv_cases ext cfg p)
    as [Hc | [(_ & _ & Hc) | (d & ds & prepared & _ & _ & _ & Hc)]];
    rewrite Hc; cbn [outcome events].
  - rewrite report_run. unfold prepend. cbn [events app].
    destruct (download cli_args); [|reflexivity].
    now destruct (probe_outcome (from_pretrained ext _)).
  - reflexivity.
  - destruct (converter_convert ext (path d) (jsonl_file_path prepared (path d)));
      [|reflexivity].
    rewrite report_run. unfold prepend. cbn [events app filter is_registration].
    destruct (download cli_args); [|reflexivity].
    now destruct (probe_outcome (from_pretrained ext _)).
Qed.

(** X5: a run makes at most one registration call, and makes it before
    any loader is called: the trace splits into a part without loader
    call followed by a part without registration. *)
Theorem registration_precedes_loading (default : string) (ext : Externals)
        (config : string) (kwargs : list (string * string)) (p : Process) :
  length (filter is_registration (events (do_cli default ext config kwargs p))) <= 1 /\
  exists pre post,
    events (do_cli default ext config kwargs p) = (pre ++ post)%list /\
    filter is_loader_call pre = [] /\
    filter is_registration post = [].
Proof.
  destruct (do_cli_setup_cases default ext config kwargs p)
    as [(e' & pre & -> & Hpre & _) | (cfg0 & args & _ & _ & _ & _ & ->)].
  { cbn [events]. destruct (setup_calls_only pre Hpre) as [Hr Hl].
    rewrite Hr. split; [cbn; lia|].
    exists pre, []. now rewrite app_nil_r. }
  set (cfg1 := set_is_preprocess cfg0 true).
  destruct (register_template_events ext cfg1 p) as [Hone _].
  destruct (register_template_frame ext cfg1 p) as [_ Hprep].
  apply preparatory_not_loader, filter_none in Hprep.
  assert (Hw : filter is_registration (warning_events default cfg1) = [] /\
               filter is_loader_call (warning_events default cfg1) = []).
  { unfold warning_events. now destruct (truthy (dataset_prepared_path cfg1)). }
  destruct Hw as [Hwr Hwl].
  destruct (after_setup_cases default ext cfg1 args p) as [(e' & _ & ->) | (_ & ->)];
    unfold prepend; cbn [events].
  - split.
    + rewrite filter_app. cbn [setup_events filter is_registration app]. exact Hone.
    + eexists. exists []. rewrite app_nil_r. split; [reflexivity|].
      split; [|reflexivity]. rewrite filter_app, Hprep. reflexivity.
  - split.
    + rewrite !filter_app, Hwr, prepare_datasets_no_registration, !app_nil_r.
      cbn [setup_events filter is_registration app]. exact Hone.
    + exists (setup_events config kwargs ++ events (register_template ext cfg1 p)
              ++ warning_events default cfg1)%list.
      exists (events (prepare_datasets ext (with_default_path default cfg1) args p)).
      split; [now rewrite <- !app_assoc|].
      split; [|apply prepare_datasets_no_registration].
      rewrite !filter_app, Hprep, Hwl. reflexivity.
Qed.

(** What a registration event of lines 48-63 tells about the step. *)
Lemma register_template_call_inv (ext : Externals) (cfg : RunConfig) (p : Process)
      (ev : Event) (o : Outcome unit) :
  In ev (events (register_template ext cfg p)) ->
  registration_outcome ext ev = Some o ->
  outcome (register_template ext cfg p) = o /\
  exists pre, events (register_template ext cfg p) = (pre ++ [ev])%list.
Proof.
  unfold register_template.
  destruct (eq_str (chat_template cfg) "chatml");
    [| destruct (eq_str (chat_template cfg) "llama3")];
    destruct (truthy (default_system_message cfg));
    cbn; intros Hin Ho;
    repeat (destruct Hin as [<-|Hin]; [try discriminate Ho|]); try destruct Hin;
    cbn in Ho; injection Ho as <-; split; try reflexivity.
  - now exists [LogInfo ("ChatML set. Adding default system message: "
                         ++ format (default_system_message cfg))].
  - now exists [].
  - now exists [LogInfo ("LLaMA-3 set. Adding default system message: "
                         ++ format (default_system_message cfg))].
  - now exists [].
Qed.

(** X14: a registration that raises is fatal: the run raises the same
    exception right after the call, with the process as it was, and no
    loader is called. *)
Theorem registration_failure_is_fatal (default : string) (ext : Externals)
        (config : string) (kwargs : list (string * string)) (p : Process)
        (ev : Event) (e : PyExn) :
  In ev (events (do_cli default ext config kwargs p)) ->
  registration_outcome ext ev = Some (Raise e) ->
  outcome (do_cli default ext config kwargs p) = Raise e /\
  final (do_cli default ext config kwargs p) = p /\
  filter is_loader_call (events (do_cli default ext config kwargs p)) = [] /\
  exists pre, events (do_cli default ext config kwargs p) = (pre ++ [ev])%list.
Proof.
  intros Hin Ho.
  assert (Hreg : is_registration ev = true).
  { destruct ev; try discriminate Ho; reflexivity. }
  assert (Hnot : forall l, filter is_registration l = [] -> ~ In ev l).
  { intros l Hl Hl'. assert (H : In ev (filter is_registration l)).
    { apply filter_In. now split. }
    rewrite Hl in H. destruct H. }
  destruct (do_cli_setup_cases default ext config kwargs p)
    as [(e' & pre & Hrun & Hpre & _) | (cfg0 & args & _ & _ & _ & _ & Hrun)];
    rewrite Hrun in *; clear Hrun.
  { exfalso. cbn [events] in Hin. revert Hin. apply Hnot.
    now apply setup_calls_only. }
  set (cfg1 := set_is_preprocess cfg0 true) in *.
  destruct (register_template_frame ext cfg1 p) as [_ Hprep].
  apply preparatory_not_loader, filter_none in Hprep.
  assert (Hin' : In ev (events (register_template ext cfg1 p))).
  { destruct (after_setup_cases default ext cfg1 args p) as [(e' & _ & Hr) | (_ & Hr)];
      rewrite Hr in Hin; unfold prepend in Hin; cbn [events] in Hin;
      apply in_app_or in Hin; destruct Hin as [Hin|Hin].
    - exfalso. revert Hin. now apply Hnot.
    - exact Hin.
    - exfalso. revert Hin. now apply Hnot.
    - apply in_app_or in Hin. destruct Hin as [Hin|Hin].
      + apply in_app_or in Hin. destruct Hin as [Hin|Hin]; [exact Hin|].
        exfalso. revert Hin. apply Hnot. unfold warning_events.
        now destruct (truthy (dataset_prepared_path cfg1)).
      + exfalso. revert Hin. apply Hnot, prepare_datasets_no_registration. }
  destruct (register_template_call_inv ext cfg1 p ev (Raise e) Hin' Ho)
    as (Hout & pre & Hev).
  destruct (after_setup_cases default ext cfg1 args p) as [(e' & Hout' & ->) | (Hout' & _)].
  2:{ rewrite Hout in Hout'. discriminate Hout'. }
  rewrite Hout in Hout'. injection Hout' as <-.
  unfold prepend. cbn [outcome final events].
  split; [reflexivity|]. split; [reflexivity|]. split.
  - rewrite filter_app, Hprep. reflexivity.
  - exists (setup_events config kwargs ++ pre)%list. now rewrite Hev, app_assoc.
Qed.

Lemma registration_failure_is_fatal_witness :
  outcome (do_cli "last_run_prepared" (Scenario.env_registration_fails Sample.cfg_csv)
                  "config.yml" [] (start true))
    = Raise (Error "ValueError") /\
  final (do_cli "last_run_prepared" (Scenario.env_registration_fails Sample.cfg_csv)
                "config.yml" [] (start true))
    = start true /\
  filter is_loader_call
    (events (do_cli "last_run_prepared" (Scenario.env_registration_fails Sample.cfg_csv)
                    "config.yml" [] (start true))) = [] /\
  exists pre,
    events (do_cli "last_run_prepared" (Scenario.env_registration_fails Sample.cfg_csv)
                   "config.yml" [] (start true))
      = (pre ++ [RegisterChatmlTemplate None])%list.
Proof.
  apply (registration_failure_is_fatal "last_run_prepared"
           (Scenario.env_registration_fails Sample.cfg_csv) "config.yml" [] (start true)
           (RegisterChatmlTemplate None) (Error "ValueError")).
  - vm_compute. do 5 right. left. reflexivity.
  - reflexivity.
Defined.

(** X4: when the accelerate configuration check or the user token check
    raises, the run raises the same exception before any template is
    registered and before any dataset work: the trace holds calls of
    lines 38-42 only. *)
Theorem environment_check_failure_aborts (default : string) (ext : Externals)
        (config : string) (kwargs : list (string * string)) (p : Process)
        (cfg0 : RunConfig) (e : PyExn) :
  load_cfg ext config kwargs = Return cfg0 ->
  check_accelerate_default_config ext = Raise e \/
  (check_accelerate_default_config ext = Return tt /\ check_user_token ext = Raise e) ->
  outcome (do_cli default ext config kwargs p) = Raise e /\
  final (do_cli default ext config kwargs p) = p /\
  forallb is_setup_call (events (do_cli default ext config kwargs p)) = true /\
  ~ In ParseArgs (events (do_cli default ext config kwargs p)).
Proof.
  intros Hcfg Hchk. unfold do_cli.
  bind_returns tt. cbn [emit events final].
  rewrite Hcfg. bind_returns cfg0. cbn [call events final].
  destruct Hchk as [Hacc | [Hacc Htok]]; rewrite Hacc.
  - bind_raises e. cbn. repeat split; auto.
    intros [H|[H|[H|[]]]]; discriminate H.
  - bind_returns tt. cbn [call events final]. rewrite Htok.
    bind_raises e. cbn. repeat split; auto.
    intros [H|[H|[H|[H|[]]]]]; discriminate H.
Qed.

Lemma environment_check_failure_aborts_witness :
  outcome (do_cli "last_run_prepared" (Scenario.env_no_token Sample.cfg_csv)
                  "config.yml" [] (start true))
    = Raise (Error "LocalTokenNotFoundError") /\
  final (do_cli "last_run_prepared" (Scenario.env_no_token Sample.cfg_csv)
                "config.yml" [] (start true))
    = start true /\
  forallb is_setup_call
    (events (do_cli "last_run_prepared" (Scenario.env_no_token Sample.cfg_csv)
                    "config.yml" [] (start true))) = true /\
  ~ In ParseArgs
       (events (do_cli "last_run_prepared" (Scenario.env_no_token Sample.cfg_csv)
                       "config.yml" [] (start true))).
Proof.
  apply (environment_check_failure_aborts "last_run_prepared"
           (Scenario.env_no_token Sample.cfg_csv) "config.yml" [] (start true)
           Sample.cfg_csv (Error "LocalTokenNotFoundError")).
  - reflexivity.
  - right. split; reflexivity.
Defined.

(** X12: a run that returns changes nothing of the loaded configuration
    but [is_preprocess] (set), [dataset_prepared_path] (only when it was
    empty) and [dataset_file]: the template, the system message, the
    datasets, [rl] and [base_model] end as loaded. *)
Theorem returned_config_frame (default : string) (ext : Externals)
        (config : string) (kwargs : list (string * string)) (p : Process)
        (cfg0 cfg' : RunConfig) :
  load_cfg ext config kwargs = Return cfg0 ->
  outcome (do_cli default ext config kwargs p) = Return cfg' ->
  chat_template cfg' = chat_template cfg0 /\
  default_system_message cfg' = default_system_message cfg0 /\
  datasets cfg' = datasets cfg0 /\
  rl cfg' = rl cfg0 /\
  base_model cfg' = base_model cfg0 /\
  is_preprocess cfg' = true /\
  (truthy (dataset_prepared_path cfg0) = true ->
   dataset_prepared_path cfg' = dataset_prepared_path cfg0).
Proof.
  intros Hcfg Hret. apply do_cli_returns in Hret.
  destruct Hret as (cfg0' & args & pre & Hcfg' & _ & _ & _ & Hconv & _).
  rewrite Hcfg in Hcfg'. injection Hcfg' as <-.
  apply convert_csv_returns in Hconv.
  unfold with_default_path in Hconv.
  change (dataset_prepared_path (set_is_preprocess cfg0 true))
    with (dataset_prepared_path cfg0) in Hconv.
  destruct (truthy (dataset_prepared_path cfg0));
    destruct Hconv as [-> | [f ->]]; repeat split; intros; try reflexivity;
    discriminate.
Qed.

Lemma returned_config_frame_witness :
  load_cfg (Sample.env Sample.cfg_json false) "config.yml" [] = Return Sample.cfg_json /\
  datasets (set_dataset_prepared_path (set_is_preprocess Sample.cfg_json true)
              (Some "last_run_prepared"))
    = datasets Sample.cfg_json /\
  rl (set_dataset_prepared_path (set_is_preprocess Sample.cfg_json true)
        (Some "last_run_prepared"))
    = rl Sample.cfg_json.
Proof.
  split; [reflexivity|].
  destruct (returned_config_frame "last_run_prepared" (Sample.env Sample.cfg_json false)
              "config.yml" [] (start true) Sample.cfg_json
              (set_dataset_prepared_path (set_is_preprocess Sample.cfg_json true)
                 (Some "last_run_prepared")))
    as (_ & _ & Hd & Hrl & _).
  - reflexivity.
  - vm_compute. reflexivity.
  - split; [exact Hd | exact Hrl].
Defined.

(** ** The artifact path does not collide *)

Lemma string_length_append (a b : string) :
  String.length (a ++ b) = String.length a + String.length b.
Proof. induction a as [|x a IH]; simpl; [reflexivity | now rewrite IH]. Qed.

Lemma append_cancel_l (a x y : string) : a ++ x = a ++ y -> x = y.
Proof.
  induction a as [|c a IH]; simpl; [auto|].
  intros H. injection H as H. auto.
Qed.

Lemma append_cancel_r (s a b : string) : a ++ s = b ++ s -> a = b.
Proof.
  revert b. induction a as [|x a IH]; intros [|y b] H.
  - reflexivity.
  - exfalso. apply (f_equal String.length) in H.
    simpl in H. rewrite string_length_append in H. lia.
  - exfalso. apply (f_equal String.length) in H.
    simpl in H. rewrite string_length_append in H. lia.
  - simpl in H. injection H as -> H. f_equal. auto.
Qed.

(** X10: for a fixed prepared path, two different CSV dataset paths never
    get the same artifact path (directories being kept, [a/x.csv] and
    [b/x.csv] do not collide). *)
Theorem jsonl_file_path_injective (prepared csv1 csv2 : string) :
  PyStr.endswith csv1 ".csv" = true ->
  PyStr.endswith csv2 ".csv" = true ->
  jsonl_file_path prepared csv1 = jsonl_file_path prepared csv2 ->
  csv1 = csv2.
Proof.
  intros H1 H2 Heq.
  apply PyStrFacts.endswith_inv in H1, H2.
  destruct H1 as [b1 ->]. destruct H2 as [b2 ->].
  rewrite !jsonl_file_path_csv in Heq.
  apply append_cancel_l in Heq. apply (append_cancel_l "/") in Heq.
  apply append_cancel_r in Heq. now subst.
Qed.

Lemma jsonl_file_path_injective_witness :
  PyStr.endswith "a/x.csv" ".csv" = true /\
  jsonl_file_path "out" "a/x.csv" = "out/a/x.jsonl" /\
  "a/x.csv" = "a/x.csv".
Proof.
  split; [reflexivity|]. split; [reflexivity|].
  apply (jsonl_file_path_injective "out" "a/x.csv" "a/x.csv"); reflexivity.
Defined.

(** ** The result of the probe does not matter *)

Lemma bind_ext {A B : Type} (m : M A) (f g : A -> M B) (p : Process) :
  (forall a q, f a q = g a q) -> bind m f p = bind m g p.
Proof.
  intros H. unfold bind. destruct (outcome (m p)); [now rewrite H | reflexivity].
Qed.

Lemma probe_outcome_caught (o : Outcome unit) :
  probe_is_caught o = true -> probe_outcome o = Return tt.
Proof.
  destruct o as [[]|e]; simpl; [reflexivity|]. now intros ->.
Qed.

(** X7: as long as the probe returns or raises an instance of [Exception],
    nothing a run does depends on it: two environments that differ only
    in such a probe give the same outcome, the same final configuration
    and the same trace. *)
Theorem probe_result_is_immaterial (default : string) (ext : Externals)
        (probe1 probe2 : string -> Outcome unit)
        (config : string) (kwargs : list (string * string)) (p : Process) :
  (forall model_name, probe_is_caught (probe1 model_name) = true) ->
  (forall model_name, probe_is_caught (probe2 model_name) = true) ->
  do_cli default (with_from_pretrained ext probe1) config kwargs p
  = do_cli default (with_from_pretrained ext probe2) config kwargs p.
Proof.
  intros H1 H2. unfold do_cli.
  apply bind_ext. intros _ q0.
  apply bind_ext. intros cfg0 q1.
  apply bind_ext. intros _ q2.
  apply bind_ext. intros _ q3.
  apply bind_ext. intros cli_args q4.
  apply bind_ext. intros _ q5.
  apply bind_ext. intros cfg1 q6.
  unfold prepare_datasets.
  apply bind_ext. intros _ q7.
  apply bind_ext. intros cfg2 q8.
  rewrite !report_run. cbn [from_pretrained with_from_pretrained].
  now rewrite (probe_outcome_caught _ (H1 (base_model cfg2))),
              (probe_outcome_caught _ (H2 (base_model cfg2))).
Qed.

Lemma probe_result_is_immaterial_witness :
  do_cli "last_run_prepared"
    (with_from_pretrained (Sample.env Sample.cfg_csv true) (fun _ => Return tt))
    "config.yml" [] (start true)
  = do_cli "last_run_prepared"
      (with_from_pretrained (Sample.env Sample.cfg_csv true)
                            (fun _ => Raise (Error "OSError")))
      "config.yml" [] (start true).
Proof.
  apply (probe_result_is_immaterial "last_run_prepared" (Sample.env Sample.cfg_csv true)
           (fun _ => Return tt) (fun _ => Raise (Error "OSError"))
           "config.yml" [] (start true)); reflexivity.
Defined.

(** ** The conversion target and the stem *)

Lemma contains_app (c : ascii) (a b : string) :
  PyStr.contains c (a ++ b) = PyStr.contains c a || PyStr.contains c b.
Proof.
  induction a as [|x a IH]; simpl; [reflexivity|].
  now rewrite IH, orb_assoc.
Qed.

Lemma rpartition_None (c : ascii) (s : string) :
  PyStr.rpartition c s = None -> PyStr.contains c s = false.
Proof.
  induction s as [|a s IH]; simpl; [reflexivity|].
  destruct (PyStr.rpartition c s) as [[h t]|]; [discriminate|].
  destruct (Ascii.eqb a c); [discriminate|]. intros _. now apply IH.
Qed.

(** [rpartition] cuts at a separator and leaves none after the cut. *)
Lemma rpartition_Some (c : ascii) (s h t : string) :
  PyStr.rpartition c s = Some (h, t) ->
  s = h ++ String c t /\ PyStr.contains c t = false.
Proof.
  revert h. induction s as [|a s IH]; intros h; simpl; [discriminate|].
  destruct (PyStr.rpartition c s) as [[h' t']|] eqn:E.
  - intros [= <- <-]. destruct (IH h' eq_refl) as [-> Ht]. split; [reflexivity | exact Ht].
  - destruct (Ascii.eqb a c) eqn:Ha; [|discriminate].
    intros [= <- <-]. apply Ascii.eqb_eq in Ha. subst a.
    split; [reflexivity | now apply rpartition_None].
Qed.

Lemma basename_no_slash (p : string) :
  PyStr.contains "/" (SpecWords.basename p) = false.
Proof.
  unfold SpecWords.basename.
  destruct (PyStr.rpartition "/" p) as [[h t]|] eqn:E.
  - now apply rpartition_Some in E.
  - now apply rpartition_None.
Qed.

(** A stem has no directory separator. *)
Lemma stem_no_slash (p : string) : PyStr.contains "/" (SpecWords.stem p) = false.
Proof.
  unfold SpecWords.stem.
  pose proof (basename_no_slash p) as Hb.
  destruct (PyStr.rpartition "." (SpecWords.basename p)) as [[h t]|] eqn:E; [|exact Hb].
  destruct h as [|a name]; [exact Hb|]. destruct t as [|b ext]; [exact Hb|].
  apply rpartition_Some in E. destruct E as [E _].
  rewrite E, contains_app in Hb. now apply orb_false_iff in Hb.
Qed.

(** C2 (amended): for every dataset path ending in [.csv], the target is
    [dataset_prepared_path], a ["/"], the dataset path as written except
    for its final [.csv] (directory components are kept), and [.jsonl];
    this is the stem with a [.jsonl] extension directly under
    [dataset_prepared_path] exactly when the dataset path has no
    directory component and is not the bare name [.csv]. *)
Theorem conversion_target_path (prepared csv_path : string) :
  PyStr.endswith csv_path ".csv" = true ->
  exists base,
    csv_path = base ++ ".csv" /\
    jsonl_file_path prepared csv_path = prepared ++ "/" ++ base ++ ".jsonl" /\
    (jsonl_file_path prepared csv_path = SpecWords.conversion_target prepared csv_path
     <-> (PyStr.contains "/" csv_path = false /\ base <> "")).
Proof.
  intros H. apply PyStrFacts.endswith_inv in H. destruct H as [base ->].
  exists base. split; [reflexivity|]. split; [apply jsonl_file_path_csv|].
  rewrite jsonl_file_path_csv. unfold SpecWords.conversion_target. split.
  - intros Heq.
    apply append_cancel_l in Heq. apply (append_cancel_l "/") in Heq.
    apply append_cancel_r in Heq.
    split.
    + rewrite contains_app. rewrite Heq at 1. now rewrite stem_no_slash.
    + intros ->. discriminate Heq.
  - intros [Hs Hb].
    unfold SpecWords.stem, SpecWords.basename.
    rewrite (PyStrFacts.rpartition_absent _ _ Hs), PyStrFacts.rpartition_csv.
    destruct base as [|a base]; [now elim Hb | reflexivity].
Qed.

Lemma conversion_target_path_witness :
  exists base,
    "train.csv" = base ++ ".csv" /\
    jsonl_file_path "out" "train.csv" = "out" ++ "/" ++ base ++ ".jsonl" /\
    (jsonl_file_path "out" "train.csv" = SpecWords.conversion_target "out" "train.csv"
     <-> (PyStr.contains "/" "train.csv" = false /\ base <> "")).
Proof.
  apply (conversion_target_path "out" "train.csv"). reflexivity.
Defined.

(** ** The success report of a run whose probe failed *)

(** After lines 65-73 [dataset_prepared_path] is a string. *)
Lemma with_default_path_some (default : string) (cfg : RunConfig) :
  exists prepared, dataset_prepared_path (with_default_path default cfg) = Some prepared.
Proof.
  unfold with_default_path.
  destruct (dataset_prepared_path cfg) as [s|] eqn:E.
  - destruct (truthy (Some s)); cbn; [rewrite E|]; eexists; reflexivity.
  - cbn. eexists. reflexivity.
Qed.

(** C3: when the probe has been called in a run (which takes [download]
    true) and [from_pretrained] raised an error, an instance of
    [Exception], the run returns: no exception escapes, and the last event
    of the trace is the success report, the green text
    [Success! Preprocessed data path: `dataset_prepared_path: P`] where [P]
    is the [dataset_prepared_path] of the configuration the run ends
    with. *)
Theorem probe_error_suppressed (default : string) (ext : Externals)
        (config : string) (kwargs : list (string * string)) (p : Process)
        (cli_args : CliArgs) (model_name : string) (trust : bool) (e : PyExn) :
  parse_args_into_dataclasses ext = Return cli_args ->
  download cli_args = true ->
  In (FromPretrained model_name trust) (events (do_cli default ext config kwargs p)) ->
  from_pretrained ext model_name = Raise e ->
  is_Exception e = true ->
  exists cfg' prepared pre,
    outcome (do_cli default ext config kwargs p) = Return cfg' /\
    dataset_prepared_path cfg' = Some prepared /\
    events (do_cli default ext config kwargs p)
      = (pre ++ [LogInfo (String (ascii_of_nat 27) "[32m"
                          ++ ("Success! Preprocessed data path: `dataset_prepared_path: "
                              ++ prepared ++ "`")
                          ++ String (ascii_of_nat 27) "[39m")])%list /\
    final (do_cli default ext config kwargs p) = p.
Proof.
  intros Hargs Hdl Hin Hraise Hexc.
  apply probe_call_inv in Hin.
  destruct Hin as (cfg0 & cfg' & pre & Hcfg & _ & _ & _ & _ & Hrun).
  rewrite Hraise in Hrun. cbn [probe_outcome] in Hrun. rewrite Hexc in Hrun.
  assert (Hout : outcome (do_cli default ext config kwargs p) = Return cfg')
    by now rewrite Hrun.
  pose proof Hout as Hret. apply do_cli_returns in Hret.
  destruct Hret as (cfg0' & args & _ & _ & _ & _ & _ & Hconv & _).
  assert (Hp : exists prepared, dataset_prepared_path cfg' = Some prepared).
  { destruct (with_default_path_some default (set_is_preprocess cfg0' true)) as [s Hs].
    apply convert_csv_returns in Hconv. destruct Hconv as [-> | [f ->]];
      exists s; exact Hs. }
  destruct Hp as [prepared Hp].
  exists cfg', prepared, (pre ++ probe_events model_name)%list.
  split; [exact Hout|]. split; [exact Hp|].
  rewrite Hrun. unfold prepend. cbn [events final].
  split; [|reflexivity].
  rewrite app_assoc. unfold success_message. rewrite Hp. reflexivity.
Qed.

Lemma probe_error_suppressed_witness :
  exists cfg' prepared pre,
    outcome (do_cli "last_run_prepared" (Sample.env Sample.cfg_csv true)
                    "config.yml" [] (start true)) = Return cfg' /\
    dataset_prepared_path cfg' = Some prepared /\
    events (do_cli "last_run_prepared" (Sample.env Sample.cfg_csv true)
                   "config.yml" [] (start true))
      = (pre ++ [LogInfo (String (ascii_of_nat 27) "[32m"
                          ++ ("Success! Preprocessed data path: `dataset_prepared_path: "
                              ++ prepared ++ "`")
                          ++ String (ascii_of_nat 27) "[39m")])%list /\
    final (do_cli "last_run_prepared" (Sample.env Sample.cfg_csv true)
                  "config.yml" [] (start true)) = start true.
Proof.
  apply (probe_error_suppressed "last_run_prepared" (Sample.env Sample.cfg_csv true)
           "config.yml" [] (start true) (mkArgs true) "some/model" true (Error "OSError"));
    try reflexivity.
  vm_compute. do 14 right. left. reflexivity.
Defined.

(** ** Template registration in a run *)

(** The registration calls of lines 48-63. *)
Lemma register_template_registrations (ext : Externals) (cfg : RunConfig) (p : Process) :
  (chat_template cfg = Some "chatml" ->
   filter is_registration (events (register_template ext cfg p))
   = [RegisterChatmlTemplate (passed_message cfg)])
  /\ (chat_template cfg = Some "llama3" ->
      filter is_registration (events (register_template ext cfg p))
      = [RegisterLlama3Template (passed_message cfg)])
  /\ (chat_template cfg <> Some "chatml" ->
      chat_template cfg <> Some "llama3" ->
      filter is_registration (events (register_template ext cfg p)) = []).
Proof.
  unfold register_template, passed_message.
  split; [|split].
  - intros H. apply eq_str_true in H. rewrite H.
    now destruct (truthy (default_system_message cfg)).
  - intros H. rewrite H.
    change (eq_str (Some "llama3") "chatml") with false.
    change (eq_str (Some "llama3") "llama3") with true. cbv iota.
    now destruct (truthy (default_system_message cfg)).
  - intros H1 H2. apply eq_str_false in H1, H2. now rewrite H1, H2.
Qed.

(** The registration calls of a run are those of lines 48-63 on the loaded
    configuration, or none when the run stops before them. *)
Lemma do_cli_registrations (default : string) (ext : Externals) (config : string)
      (kwargs : list (string * string)) (p : Process) (cfg0 : RunConfig) :
  load_cfg ext config kwargs = Return cfg0 ->
  (filter is_registration (events (do_cli default ext config kwargs p)) = [] \/
   filter is_registration (events (do_cli default ext config kwargs p))
   = filter is_registration (events (register_template ext (set_is_preprocess cfg0 true) p)))
  /\ (forall cli_args,
        check_accelerate_default_config ext = Return tt ->
        check_user_token ext = Return tt ->
        parse_args_into_dataclasses ext = Return cli_args ->
        filter is_registration (events (do_cli default ext config kwargs p))
        = filter is_registration
            (events (register_template ext (set_is_preprocess cfg0 true) p))).
Proof.
  intros Hcfg.
  destruct (do_cli_setup_cases default ext config kwargs p)
    as [(e' & pre & -> & Hpre & Hwhich) | (cfg0' & args & Hcfg' & _ & _ & _ & ->)].
  { cbn [events]. destruct (setup_calls_only pre Hpre) as [Hr _]. split; [now left|].
    intros cli_args Hacc Htok Hargs.
    destruct Hwhich as [H|[H|[H|H]]]; congruence. }
  rewrite Hcfg in Hcfg'. injection Hcfg' as <-.
  set (cfg1 := set_is_preprocess cfg0 true).
  assert (Hw : filter is_registration (warning_events default cfg1) = []).
  { unfold warning_events. now destruct (truthy (dataset_prepared_path cfg1)). }
  assert (Heq : filter is_registration
                  (events (prepend (setup_events config kwargs)
                     ((register_template ext cfg1 ;;
                       parsed_cfg <- default_prepared_path default cfg1 ;;
                       prepare_datasets ext parsed_cfg args) p)))
                = filter is_registration (events (register_template ext cfg1 p))).
  { destruct (after_setup_cases default ext cfg1 args p) as [(e' & _ & ->) | (_ & ->)];
      unfold prepend; cbn [events]; rewrite !filter_app.
    - reflexivity.
    - now rewrite Hw, prepare_datasets_no_registration, !app_nil_r. }
  split; [now right | intros; exact Heq].
Qed.

(** C8 (amended): in a run, registration is dispatched by exact match on
    the [chat_template] of the loaded configuration.  When lines 38-46
    return, ["chatml"] makes the run call the chatml registration, and
    nothing else, once, and ["llama3"] the llama3 registration, in each
    case with [default_system_message] as argument when it is truthy
    (present and not empty) and with no argument otherwise.  For any other
    [chat_template] no run makes a registration call, and no run makes a
    registration call other than the dispatched one. *)
Theorem register_template_dispatch (default : string) (ext : Externals)
        (config : string) (kwargs : list (string * string)) (p : Process)
        (cfg0 : RunConfig) :
  load_cfg ext config kwargs = Return cfg0 ->
  (forall cli_args,
     check_accelerate_default_config ext = Return tt ->
     check_user_token ext = Return tt ->
     parse_args_into_dataclasses ext = Return cli_args ->
     (chat_template cfg0 = Some "chatml" ->
      filter is_registration (events (do_cli default ext config kwargs p))
      = [RegisterChatmlTemplate
           (if truthy (default_system_message cfg0) then default_system_message cfg0
            else None)])
     /\ (chat_template cfg0 = Some "llama3" ->
         filter is_registration (events (do_cli default ext config kwargs p))
         = [RegisterLlama3Template
              (if truthy (default_system_message cfg0) then default_system_message cfg0
               else None)]))
  /\ (chat_template cfg0 <> Some "chatml" ->
      chat_template cfg0 <> Some "llama3" ->
      filter is_registration (events (do_cli default ext config kwargs p)) = [])
  /\ (forall ev,
        In ev (events (do_cli default ext config kwargs p)) ->
        is_registration ev = true ->
        (chat_template cfg0 = Some "chatml" /\
         ev = RegisterChatmlTemplate
                (if truthy (default_system_message cfg0) then default_system_message cfg0
                 else None))
        \/ (chat_template cfg0 = Some "llama3" /\
            ev = RegisterLlama3Template
                   (if truthy (default_system_message cfg0) then default_system_message cfg0
                    else None))).
Proof.
  intros Hcfg.
  destruct (do_cli_registrations default ext config kwargs p cfg0 Hcfg) as [Hany Hreach].
  destruct (register_template_registrations ext (set_is_preprocess cfg0 true) p)
    as (Hchatml & Hllama & Hother).
  change (chat_template (set_is_preprocess cfg0 true)) with (chat_template cfg0) in *.
  change (passed_message (set_is_preprocess cfg0 true))
    with (if truthy (default_system_message cfg0) then default_system_message cfg0
          else None) in *.
  split; [|split].
  - intros cli_args Hacc Htok Hargs.
    rewrite (Hreach cli_args Hacc Htok Hargs). split; assumption.
  - intros H1 H2. destruct Hany as [H|H]; [exact H|]. rewrite H. now apply Hother.
  - intros ev Hin Hreg.
    assert (Hf : In ev (filter is_registration (events (do_cli default ext config kwargs p)))).
    { apply filter_In. now split. }
    destruct Hany as [H|H]; rewrite H in Hf; [destruct Hf|].
    destruct (eq_str (chat_template cfg0) "chatml") eqn:E1.
    + apply eq_str_true in E1. rewrite (Hchatml E1) in Hf.
      destruct Hf as [<-|[]]. left. now split.
    + destruct (eq_str (chat_template cfg0) "llama3") eqn:E2.
      * apply eq_str_true in E2. rewrite (Hllama E2) in Hf.
        destruct Hf as [<-|[]]. right. now split.
      * apply eq_str_false in E1, E2. rewrite (Hother E1 E2) in Hf. destruct Hf.
Qed.

Lemma register_template_dispatch_witness :
  load_cfg (Sample.env Sample.cfg_json true) "config.yml" [] = Return Sample.cfg_json /\
  filter is_registration
    (events (do_cli "last_run_prepared" (Sample.env Sample.cfg_json true)
                    "config.yml" [] (start true)))
  = [RegisterLlama3Template (Some "You are helpful.")].
Proof.
  split; [reflexivity|].
  exact (proj2 (proj1
    (register_template_dispatch "last_run_prepared" (Sample.env Sample.cfg_json true)
       "config.yml" [] (start true) Sample.cfg_json eq_refl)
    (mkArgs true) eq_refl eq_refl eq_refl) eq_refl).
Defined.

(** C10: in a run whose loaded configuration has [chat_template] equal to
    ["chatml"] or ["llama3"] and the empty string as
    [default_system_message], and in which lines 38-46 return, the one
    registration call of the run is made with no message argument; the
    registration calls of the run are those of the same run on the
    configuration with [default_system_message] absent. *)
Theorem empty_message_as_absent (default : string) (ext : Externals)
        (config : string) (kwargs : list (string * string)) (p : Process)
        (cfg0 : RunConfig) (cli_args : CliArgs) :
  load_cfg ext config kwargs = Return cfg0 ->
  check_accelerate_default_config ext = Return tt ->
  check_user_token ext = Return tt ->
  parse_args_into_dataclasses ext = Return cli_args ->
  chat_template cfg0 = Some "chatml" \/ chat_template cfg0 = Some "llama3" ->
  default_system_message cfg0 = Some "" ->
  (chat_template cfg0 = Some "chatml" ->
   filter is_registration (events (do_cli default ext config kwargs p))
   = [RegisterChatmlTemplate None]) /\
  (chat_template cfg0 = Some "llama3" ->
   filter is_registration (events (do_cli default ext config kwargs p))
   = [RegisterLlama3Template None]) /\
  filter is_registration (events (do_cli default ext config kwargs p))
  = filter is_registration
      (events (do_cli default
                 (with_loaded_cfg ext (set_default_system_message cfg0 None))
                 config kwargs p)).
Proof.
  intros Hcfg Hacc Htok Hargs Hct Hmsg.
  destruct (do_cli_registrations default ext config kwargs p cfg0 Hcfg) as [_ Hreach].
  destruct (do_cli_registrations default
              (with_loaded_cfg ext (set_default_system_message cfg0 None))
              config kwargs p (set_default_system_message cfg0 None) eq_refl)
    as [_ Hreach'].
  rewrite (Hreach cli_args Hacc Htok Hargs).
  rewrite (Hreach' cli_args Hacc Htok Hargs).
  destruct (register_template_registrations ext (set_is_preprocess cfg0 true) p)
    as (Hchatml & Hllama & _).
  destruct (register_template_registrations
              (with_loaded_cfg ext (set_default_system_message cfg0 None))
              (set_is_preprocess (set_default_system_message cfg0 None) true) p)
    as (Hchatml' & Hllama' & _).
  change (chat_template (set_is_preprocess cfg0 true)) with (chat_template cfg0) in *.
  change (chat_template (set_is_preprocess (set_default_system_message cfg0 None) true))
    with (chat_template cfg0) in *.
  assert (Hpass : passed_message (set_is_preprocess cfg0 true) = None).
  { unfold passed_message.
    change (default_system_message (set_is_preprocess cfg0 true))
      with (default_system_message cfg0).
    now rewrite Hmsg. }
  rewrite Hpass in *.
  change (passed_message (set_is_preprocess (set_default_system_message cfg0 None) true))
    with (@None string) in *.
  split; [exact Hchatml|]. split; [exact Hllama|].
  destruct Hct as [H|H].
  - now rewrite (Hchatml H), (Hchatml' H).
  - now rewrite (Hllama H), (Hllama' H).
Qed.

Lemma empty_message_as_absent_witness :
  default_system_message Sample.cfg_csv = Some "" /\
  filter is_registration
    (events (do_cli "last_run_prepared" (Sample.env Sample.cfg_csv true)
                    "config.yml" [] (start true)))
  = [RegisterChatmlTemplate None].
Proof.
  split; [reflexivity|].
  exact (proj1
    (empty_message_as_absent "last_run_prepared" (Sample.env Sample.cfg_csv true)
       "config.yml" [] (start true) Sample.cfg_csv (mkArgs true)
       eq_refl eq_refl eq_refl eq_refl (or_introl eq_refl) eq_refl) eq_refl).
Defined.
